(** * Reconciliation core of the Hetzner Robot Terraform provider

    A shallow embedding of the firewall and vSwitch resources
    ([client.go], [client_firewall.go], [resource_firewall.go] and the
    vSwitch resource file) together with the properties their
    specification states about them.

    Conventions of the embedding:
    - a Go [string] is a [string], a Go [int] is a [Z] (no arithmetic is
      performed on them, so no wrap-around appears), a slice is a [list];
    - [url.Values] and [map[string]any] are [gmap]s keyed by strings, the
      [map[int]struct{}] key sets are [gset Z];
    - a Go [error] is represented by its message;
    - remote calls are threaded through a small state monad whose state is
      the history of calls issued so far. *)

From Stdlib Require Import ZArith Ascii.
From stdpp Require Import base option list gmap strings pretty.

Open Scope string_scope.
Open Scope list_scope.

(** ** Dynamically typed values of the plugin SDK *)

(** A value of Go type [any] stored under a key of a nested block. *)
Inductive value : Type :=
  | VNil
  | VString (s : string)
  | VInt (n : Z)
  | VBool (b : bool).

(** An element of a [[]any]: the SDK hands nested blocks over as
    [map[string]any]; anything else fails the type assertion. *)
Inductive elem : Type :=
  | EMap (m : gmap string value)
  | EOther (v : value).

(** A top-level attribute as returned by [d.Get]. *)
Inductive attr : Type :=
  | ANil
  | APrim (v : value)
  | AList (l : list elem).

#[global] Instance value_eq_dec : EqDecision value.
Proof. solve_decision. Defined.
#[global] Instance elem_eq_dec : EqDecision elem.
Proof. solve_decision. Defined.
#[global] Instance attr_eq_dec : EqDecision attr.
Proof. solve_decision. Defined.

(** [s, _ := x.(string)] *)
Definition asString (x : value) : string :=
  match x with VString s => s | _ => "" end.

(** [b, _ := x.(bool)] *)
Definition asBool (x : value) : bool :=
  match x with VBool b => b | _ => false end.

(** [n, _ := x.(int)] *)
Definition asInt (x : value) : Z :=
  match x with VInt n => n | _ => 0%Z end.

(** [n, ok := x.(int)] *)
Definition asIntOk (x : value) : option Z :=
  match x with VInt n => Some n | _ => None end.

(** [m[key]] on a [map[string]any]: a missing key reads as [nil]. *)
Definition index (m : gmap string value) (key : string) : value :=
  default VNil (m !! key).

(** ** [schema.ResourceData] *)

Record ResourceData : Type := mkResourceData {
  rd_id : string;
  (** prior state, the left component of [GetChange] *)
  rd_state : gmap string attr;
  (** planned values, read by [Get] and written by [Set] *)
  rd_config : gmap string attr
}.

Definition rd_Id (d : ResourceData) : string := rd_id d.

Definition rd_SetId (v : string) (d : ResourceData) : ResourceData :=
  {| rd_id := v; rd_state := rd_state d; rd_config := rd_config d |}.

Definition rd_Get (d : ResourceData) (key : string) : attr :=
  default ANil (rd_config d !! key).

Definition rd_GetChange (d : ResourceData) (key : string) : attr * attr :=
  (default ANil (rd_state d !! key), default ANil (rd_config d !! key)).

Definition rd_HasChange (d : ResourceData) (key : string) : bool :=
  let '(o, n) := rd_GetChange d key in bool_decide (o ≠ n).

(** [d.Set] refuses a key the resource schema does not declare and leaves
    the data as it was; the callers drop the error ([_ = d.Set(...)]). *)
Definition rd_Set (schemaKeys : list string) (key : string) (v : attr)
    (d : ResourceData) : ResourceData :=
  if bool_decide (key ∈ schemaKeys)
  then {| rd_id := rd_id d; rd_state := rd_state d;
          rd_config := <[key := v]> (rd_config d) |}
  else d.

(** [s, _ := a.(string)], [b, _ := a.(bool)], [n, _ := a.(int)],
    [l, _ := a.([]any)] on a top-level attribute. *)
Definition attrString (a : attr) : string :=
  match a with APrim v => asString v | _ => "" end.
Definition attrBool (a : attr) : bool :=
  match a with APrim v => asBool v | _ => false end.
Definition attrInt (a : attr) : Z :=
  match a with APrim v => asInt v | _ => 0%Z end.
Definition attrList (a : attr) : list elem :=
  match a with AList l => l | _ => [] end.

(** ** Diagnostics ([diag] package) *)

Module diag.

Inductive Severity : Type := Error | Warning.

Record Diagnostic : Type := mkDiagnostic {
  Sev : Severity;
  Summary : string;
  Detail : string
}.

Definition Diagnostics : Type := list Diagnostic.

(** [diag.Errorf(format, a...)] with the format already applied. *)
Definition Errorf (msg : string) : Diagnostics :=
  [ {| Sev := Error; Summary := msg; Detail := "" |} ].

(** [diag.FromErr(err)] *)
Definition FromErr (err : string) : Diagnostics :=
  [ {| Sev := Error; Summary := err; Detail := "" |} ].

Definition HasError (ds : Diagnostics) : bool :=
  existsb (λ x, match Sev x with Error => true | Warning => false end) ds.

#[global] Instance Severity_eq_dec : EqDecision Severity.
Proof. solve_decision. Defined.
#[global] Instance Diagnostic_eq_dec : EqDecision Diagnostic.
Proof. solve_decision. Defined.

End diag.

(** ** Firewall data model ([client_firewall.go]) *)

Record HetznerRobotFirewallRule : Type := mkRule {
  Name : string;
  DstIP : string;
  DstPort : string;
  SrcIP : string;
  SrcPort : string;
  Protocol : string;
  TCPFlags : string;
  Action : string;
  IPVersion : string
}.

Record HetznerRobotFirewallRules : Type := mkRules {
  Input : list HetznerRobotFirewallRule
}.

Record HetznerRobotFirewall : Type := mkFirewall {
  IP : string;
  WhitelistHetznerServices : bool;
  Status : string;
  Rules : HetznerRobotFirewallRules
}.

#[global] Instance HetznerRobotFirewallRule_eq_dec :
  EqDecision HetznerRobotFirewallRule.
Proof. solve_decision. Defined.

(** ** [url.Values] *)

Abbreviation Values := (gmap string (list string)).

(** [data.Set(key, value)] replaces whatever the key held by one value. *)
Definition values_Set (key val : string) (data : Values) : Values :=
  <[key := [val]]> data.

(** ** The encoder of [setFirewall] *)

(** [fmt.Sprintf("rules[input][%d][<field>]", idx)] *)
Definition inputKey (idx : nat) (field : string) : string :=
  "rules[input][" +:+ pretty idx +:+ "][" +:+ field +:+ "]".

(** The version the encoder works with: an empty one means ipv4. *)
Definition effectiveIPVersion (rule : HetznerRobotFirewallRule) : string :=
  if decide (IPVersion rule = "") then "ipv4" else IPVersion rule.

(** Body of the loop over [firewall.Rules.Input]. *)
Definition encodeRule (idx : nat) (rule : HetznerRobotFirewallRule)
    (data : Values) : Values :=
  let ipVersion := effectiveIPVersion rule in
  (* Basic fields that are always set *)
  let data := values_Set (inputKey idx "name") (Name rule) data in
  let data := values_Set (inputKey idx "ip_version") ipVersion data in
  let data := values_Set (inputKey idx "action") (Action rule) data in
  (* For IPv6 rules, src_ip and dst_ip cannot be set *)
  let data :=
    if decide (ipVersion ≠ "ipv6") then
      let data := values_Set (inputKey idx "src_ip") (SrcIP rule) data in
      if decide (DstIP rule ≠ "")
      then values_Set (inputKey idx "dst_ip") (DstIP rule) data
      else data
    else data in
  (* Port fields *)
  let data := values_Set (inputKey idx "dst_port") (DstPort rule) data in
  let data :=
    if decide (SrcPort rule ≠ "")
    then values_Set (inputKey idx "src_port") (SrcPort rule) data
    else data in
  (* Protocol and TCP flags *)
  let data :=
    if decide (Protocol rule ≠ "")
    then values_Set (inputKey idx "protocol") (Protocol rule) data
    else data in
  if decide (TCPFlags rule ≠ "")
  then values_Set (inputKey idx "tcp_flags") (TCPFlags rule) data
  else data.

(** [for idx, rule := range firewall.Rules.Input { ... }], started at
    index [idx]. *)
Fixpoint encodeRules (idx : nat) (rules : list HetznerRobotFirewallRule)
    (data : Values) : Values :=
  match rules with
  | [] => data
  | rule :: rest => encodeRules (S idx) rest (encodeRule idx rule data)
  end.

(** The form data [setFirewall] builds before it posts them. *)
Definition setFirewallData (firewall : HetznerRobotFirewall) : Values :=
  let data : Values := ∅ in
  let whitelistHOS :=
    if WhitelistHetznerServices firewall then "true" else "false" in
  let data := values_Set "whitelist_hos" whitelistHOS data in
  let data := values_Set "status" (Status firewall) data in
  let data := encodeRules 0 (Input (Rules firewall)) data in
  (* default output rule, required by the API *)
  let data := values_Set "rules[output][0][name]" "Allow all" data in
  values_Set "rules[output][0][action]" "accept" data.

(** ** The transport collaborator *)

Inductive result (A : Type) : Type :=
  | Ok (a : A)
  | Err (err : string).
Arguments Ok {A} a.
Arguments Err {A} err.

Record HetznerRobotClient : Type := mkClient {
  username : string;
  password : string;
  url : string
}.

Definition NewHetznerRobotClient (username password url : string)
    : HetznerRobotClient :=
  {| username := username; password := password; url := url |}.

(** The [*http.Request] as [makeAPICall] prepares it. The form stands for
    the body [data.Encode()]. *)
Record Request : Type := mkRequest {
  req_method : string;
  req_uri : string;
  req_form : option Values;
  req_content_type : option string;
  req_basic_auth : string * string
}.

(** What [client.Do] followed by [io.ReadAll] can yield. *)
Inductive HttpOutcome : Type :=
  | DoError (err : string)
  | ReadError (err : string)
  | Response (StatusCode : Z) (body : string).

(** Modelled from the spec: the type declarations of the vSwitch client are
    not among the sources; the Member of a SwitchConfig carries the server
    identifier and three remote-assigned fields, named after the resource
    schema ([server_number], [server_ip], [server_ipv6_net], [status]). *)
Record HetznerRobotVSwitchServer : Type := mkVSwitchServer {
  ServerNumber : Z;
  ServerIP : string;
  ServerIPv6Net : string;
  ServerStatus : string
}.

(** [HetznerRobotVSwitchServer{ServerNumber: srvNum}]: the other fields
    keep their zero value. *)
Definition serverOfNumber (srvNum : Z) : HetznerRobotVSwitchServer :=
  {| ServerNumber := srvNum; ServerIP := ""; ServerIPv6Net := "";
     ServerStatus := "" |}.

(** Modelled from the spec: attached subnets and cloud networks of a
    SwitchConfig, informational only; fields after the resource schema. *)
Record HetznerRobotVSwitchSubnet : Type := mkVSwitchSubnet {
  SubnetIP : string;
  SubnetMask : Z;
  SubnetGateway : string
}.

Record HetznerRobotVSwitchCloudNetwork : Type := mkVSwitchCloudNetwork {
  CloudID : Z;
  CloudIP : string;
  CloudMask : Z;
  CloudGateway : string
}.

(** Modelled from the spec: the SwitchConfig record the vSwitch client
    returns (identifier, name, VLAN tag, cancellation flag, members,
    subnets, cloud networks), with the field names the resource reads. *)
Record HetznerRobotVSwitch : Type := mkVSwitch {
  vsID : Z;
  vsName : string;
  vsVlan : Z;
  vsCanceled : bool;
  vsServer : list HetznerRobotVSwitchServer;
  vsSubnet : list HetznerRobotVSwitchSubnet;
  vsCloudNetwork : list HetznerRobotVSwitchCloudNetwork
}.

#[global] Instance HetznerRobotVSwitchServer_eq_dec :
  EqDecision HetznerRobotVSwitchServer.
Proof. solve_decision. Defined.

(** A call that leaves the process. *)
Inductive Event : Type :=
  | EvHttp (request : Request)
  | EvUpdateVSwitch (id name : string) (vlan : Z)
  | EvRemoveVSwitchServers (id : string)
      (servers : list HetznerRobotVSwitchServer)
  | EvAddVSwitchServers (id : string)
      (servers : list HetznerRobotVSwitchServer)
  | EvGetVSwitch (id : string).

(** The history of calls issued so far, oldest first. *)
Abbreviation World := (list Event).

(** The remote side and the libraries in front of it. Every answer may
    depend on the history. The four vSwitch client methods are not among
    the sources: they are taken as parameters, each of them one call. *)
Record Remote : Type := mkRemote {
  (** the error of [http.NewRequestWithContext], if any *)
  http_NewRequest : string → string → option string;
  http_Do : World → Request → HttpOutcome;
  vs_update : World → string → string → Z → option string;
  vs_remove : World → string → list HetznerRobotVSwitchServer → option string;
  vs_add : World → string → list HetznerRobotVSwitchServer → option string;
  vs_get : World → string → result HetznerRobotVSwitch;
  (** the verb [%q] of [fmt] applied to an error *)
  fmt_q : string → string
}.

(** *** State monad over the history *)

Definition M (A : Type) : Type := World → A * World.

Definition ret {A : Type} (a : A) : M A := λ w, (a, w).

Definition bind {A B : Type} (c : M A) (k : A → M B) : M B :=
  λ w, let '(a, w') := c w in k a w'.

Notation "x <~ c ;; k" := (bind c (λ x, k))
  (at level 100, c at next level, right associativity,
   format "'[v' x  <~  c  ;;  '/' k ']'").

Definition emit {A : Type} (e : Event) (answer : World → A) : M A :=
  λ w, (answer w, w ++ [e]).

(** The calls recorded by a computation started in history [w]. *)
Definition calls {A : Type} (c : M A) (w : World) : World := snd (c w).

(** The value a computation returns when started in history [w]. *)
Definition outcome {A : Type} (c : M A) (w : World) : A := fst (c w).

(** The [meta any] argument of the lifecycle hooks and its type assertion
    [m.(HetznerRobotClient)]. *)
Inductive Meta : Type :=
  | MetaClient (c : HetznerRobotClient)
  | MetaOther.

(** The two characters of the Go escape sequence [\n\t]. *)
Definition nl_tab : string :=
  String (Ascii.ascii_of_nat 10) (String (Ascii.ascii_of_nat 9) "").

Section Client.

Variable R : Remote.

(** ** [client.go] *)

Definition codeIsInExpected (statusCode : Z) (expectedStatusCodes : list Z)
    : bool :=
  bool_decide (statusCode ∈ expectedStatusCodes).

Definition makeAPICall (c : HetznerRobotClient) (method uri : string)
    (data : option Values) (expectedStatusCodes : list Z)
    : M (result string) :=
  match http_NewRequest R method uri with
  | Some err => ret (Err err)
  | None =>
      let request :=
        {| req_method := method; req_uri := uri; req_form := data;
           req_content_type :=
             match data with
             | Some _ => Some "application/x-www-form-urlencoded"
             | None => None
             end;
           req_basic_auth := (username c, password c) |} in
      response <~ emit (EvHttp request) (λ w, http_Do R w request) ;;
      match response with
      | DoError err => ret (Err ("error sending request: " +:+ err))
      | ReadError err => ret (Err err)
      | Response StatusCode responseBytes =>
          if negb (codeIsInExpected StatusCode expectedStatusCodes)
          then ret (Err ("hetzner webservice response status "
                         +:+ pretty StatusCode +:+ ": " +:+ responseBytes))
          else ret (Ok responseBytes)
      end
  end.

(** ** [client_firewall.go] *)

Definition setFirewall (c : HetznerRobotClient)
    (firewall : HetznerRobotFirewall) : M (option string) :=
  let data := setFirewallData firewall in
  r <~ makeAPICall c "POST" (url c +:+ "/firewall/" +:+ IP firewall)
         (Some data) [200%Z; 202%Z] ;;
  match r with
  | Err err => ret (Some err)
  | Ok _ => ret None
  end.

(** ** vSwitch client methods *)

(** Modelled from the spec: the vSwitch client methods are not among the
    sources. Each is one apply (or fetch) of the transport collaborator:
    it issues one remote call and waits for its answer, a transport error
    or a success. *)
Definition updateVSwitch (c : HetznerRobotClient) (id name : string)
    (vlan : Z) : M (option string) :=
  emit (EvUpdateVSwitch id name vlan) (λ w, vs_update R w id name vlan).

(** Modelled from the spec: the remove call of the membership
    reconciliation, one remote call carrying [toRemove]. *)
Definition removeVSwitchServers (c : HetznerRobotClient) (id : string)
    (servers : list HetznerRobotVSwitchServer) : M (option string) :=
  emit (EvRemoveVSwitchServers id servers) (λ w, vs_remove R w id servers).

(** Modelled from the spec: the add call of the membership
    reconciliation, one remote call carrying [toAdd]. *)
Definition addVSwitchServers (c : HetznerRobotClient) (id : string)
    (servers : list HetznerRobotVSwitchServer) : M (option string) :=
  emit (EvAddVSwitchServers id servers) (λ w, vs_add R w id servers).

(** Modelled from the spec: the fetch of a SwitchConfig by identity, one
    remote call answering the remote record or a transport error. *)
Definition getVSwitch (c : HetznerRobotClient) (id : string)
    : M (result HetznerRobotVSwitch) :=
  emit (EvGetVSwitch id) (λ w, vs_get R w id).

(** ** [resource_firewall.go] *)

Definition ipv6SrcWarning (name : string) : diag.Diagnostic :=
  {| diag.Sev := diag.Warning;
     diag.Summary := "IPv6 rule '" +:+ name +:+ "': src_ip field ignored";
     diag.Detail := "Hetzner Robot API does not support source IP filtering for IPv6 rules. The src_ip field will be ignored." |}.

Definition ipv6DstWarning (name : string) : diag.Diagnostic :=
  {| diag.Sev := diag.Warning;
     diag.Summary := "IPv6 rule '" +:+ name +:+ "': dst_ip field ignored";
     diag.Detail := "Hetzner Robot API does not support destination IP filtering for IPv6 rules. The dst_ip field will be ignored." |}.

(** Body of the loop over [rules_data] in [resourceFirewallCreate]; the
    accumulator holds [diags] and [rules]. *)
Definition createRuleStep
    (acc : diag.Diagnostics * list HetznerRobotFirewallRule)
    (ruleMap : elem) : diag.Diagnostics * list HetznerRobotFirewallRule :=
  let '(diags, rules) := acc in
  match ruleMap with
  | EOther _ => acc
  | EMap ruleProperties =>
      let ipVersion :=
        match index ruleProperties "ip_version" with
        | VString v => if decide (v ≠ "") then v else "ipv4"
        | _ => "ipv4"
        end in
      let name := asString (index ruleProperties "name") in
      let srcIP := asString (index ruleProperties "src_ip") in
      let srcPort := asString (index ruleProperties "src_port") in
      let dstIP := asString (index ruleProperties "dst_ip") in
      let dstPort := asString (index ruleProperties "dst_port") in
      let protocol := asString (index ruleProperties "protocol") in
      let tcpFlags := asString (index ruleProperties "tcp_flags") in
      let action := asString (index ruleProperties "action") in
      (* Warn about IPv6 restrictions *)
      let diags :=
        if decide (ipVersion = "ipv6") then
          let diags :=
            if decide (srcIP ≠ "") then diags ++ [ipv6SrcWarning name]
            else diags in
          if decide (dstIP ≠ "") then diags ++ [ipv6DstWarning name]
          else diags
        else diags in
      (diags,
       rules ++ [ {| Name := name; SrcIP := srcIP; SrcPort := srcPort;
                     DstIP := dstIP; DstPort := dstPort;
                     Protocol := protocol; TCPFlags := tcpFlags;
                     Action := action; IPVersion := ipVersion |} ])
  end.

Definition resourceFirewallCreate (d : ResourceData) (m : Meta)
    : M (diag.Diagnostics * ResourceData) :=
  match m with
  | MetaOther =>
      ret (diag.Errorf "Unable to cast meta to HetznerRobotClient", d)
  | MetaClient c =>
      let serverIP := attrString (rd_Get d "server_ip") in
      let status :=
        if attrBool (rd_Get d "active") then "active" else "disabled" in
      let rules_data := attrList (rd_Get d "rule") in
      let '(diags, rules) := foldl createRuleStep ([], []) rules_data in
      err <~ setFirewall c
               {| IP := serverIP;
                  WhitelistHetznerServices :=
                    attrBool (rd_Get d "whitelist_hos");
                  Status := status;
                  Rules := {| Input := rules |} |} ;;
      match err with
      | Some err => ret (diag.FromErr err, d)
      | None => ret (diags, rd_SetId serverIP d)
      end
  end.

(** Body of the loop over [rules_data] in [resourceFirewallUpdate]. *)
Definition updateRuleStep
    (acc : diag.Diagnostics * list HetznerRobotFirewallRule)
    (ruleMap : elem) : diag.Diagnostics * list HetznerRobotFirewallRule :=
  let '(diags, rules) := acc in
  match ruleMap with
  | EOther _ => acc
  | EMap ruleProperties =>
      let ipVersion :=
        match index ruleProperties "ip_version" with
        | VString v => if decide (v ≠ "") then v else "ipv4"
        | _ => "ipv4"
        end in
      let name := asString (index ruleProperties "name") in
      let srcIP := asString (index ruleProperties "src_ip") in
      let srcPort := asString (index ruleProperties "src_port") in
      let dstIP := asString (index ruleProperties "dst_ip") in
      let dstPort := asString (index ruleProperties "dst_port") in
      let protocol := asString (index ruleProperties "protocol") in
      let tcpFlags := asString (index ruleProperties "tcp_flags") in
      let action := asString (index ruleProperties "action") in
      (* Warn about IPv6 restrictions *)
      let diags :=
        if decide (ipVersion = "ipv6") then
          let diags :=
            if decide (srcIP ≠ "") then diags ++ [ipv6SrcWarning name]
            else diags in
          if decide (dstIP ≠ "") then diags ++ [ipv6DstWarning name]
          else diags
        else diags in
      (diags,
       rules ++ [ {| Name := name; SrcIP := srcIP; SrcPort := srcPort;
                     DstIP := dstIP; DstPort := dstPort;
                     Protocol := protocol; TCPFlags := tcpFlags;
                     Action := action; IPVersion := ipVersion |} ])
  end.

Definition resourceFirewallUpdate (d : ResourceData) (m : Meta)
    : M (diag.Diagnostics * ResourceData) :=
  match m with
  | MetaOther =>
      ret (diag.Errorf "Unable to cast meta to HetznerRobotClient", d)
  | MetaClient c =>
      let serverIP := attrString (rd_Get d "server_ip") in
      let status :=
        if attrBool (rd_Get d "active") then "active" else "disabled" in
      let rules_data := attrList (rd_Get d "rule") in
      let '(diags, rules) := foldl updateRuleStep ([], []) rules_data in
      err <~ setFirewall c
               {| IP := serverIP;
                  WhitelistHetznerServices :=
                    attrBool (rd_Get d "whitelist_hos");
                  Status := status;
                  Rules := {| Input := rules |} |} ;;
      match err with
      | Some err => ret (diag.FromErr err, d)
      | None => ret (diags, d)
      end
  end.

Definition resourceFirewallDelete (d : ResourceData) (m : Meta)
    : M (diag.Diagnostics * ResourceData) :=
  let diags : diag.Diagnostics := [] in
  ret (diags, d).

(** ** The vSwitch resource *)

(** Keys declared by the schema of [resourceVSwitch]. *)
Definition vSwitchSchemaKeys : list string :=
  ["name"; "vlan"; "is_canceled"; "servers"; "subnets"; "cloud_networks"].

Definition serverToElem (s : HetznerRobotVSwitchServer) : elem :=
  EMap (<["server_number" := VInt (ServerNumber s)]>
        (<["server_ip" := VString (ServerIP s)]>
        (<["server_ipv6_net" := VString (ServerIPv6Net s)]>
        (<["status" := VString (ServerStatus s)]> ∅)))).

Definition subnetToElem (s : HetznerRobotVSwitchSubnet) : elem :=
  EMap (<["ip" := VString (SubnetIP s)]>
        (<["mask" := VInt (SubnetMask s)]>
        (<["gateway" := VString (SubnetGateway s)]> ∅))).

Definition cloudNetworkToElem (n : HetznerRobotVSwitchCloudNetwork) : elem :=
  EMap (<["id" := VInt (CloudID n)]>
        (<["ip" := VString (CloudIP n)]>
        (<["mask" := VInt (CloudMask n)]>
        (<["gateway" := VString (CloudGateway n)]> ∅)))).

Definition resourceVSwitchRead (d : ResourceData) (meta : Meta)
    : M (diag.Diagnostics * ResourceData) :=
  match meta with
  | MetaOther =>
      ret (diag.Errorf "Unable to cast meta to HetznerRobotClient", d)
  | MetaClient c =>
      let vSwitchID := rd_Id d in
      r <~ getVSwitch c vSwitchID ;;
      match r with
      | Err err =>
          ret (diag.FromErr ("unable to find VSwitch with ID " +:+ vSwitchID
                             +:+ ": " +:+ err), d)
      | Ok vSwitch =>
          let set := rd_Set vSwitchSchemaKeys in
          let d := set "name" (APrim (VString (vsName vSwitch))) d in
          let d := set "vlan" (APrim (VInt (vsVlan vSwitch))) d in
          let d := set "canceled" (APrim (VBool (vsCanceled vSwitch))) d in
          let d := set "servers"
                     (AList (serverToElem <$> vsServer vSwitch)) d in
          let d := set "subnets"
                     (AList (subnetToElem <$> vsSubnet vSwitch)) d in
          let d := set "cloud_networks"
                     (AList (cloudNetworkToElem <$> vsCloudNetwork vSwitch))
                     d in
          let diags : diag.Diagnostics := [] in
          ret (diags, d)
      end
  end.

(** The loops that fill [mb] (from [newServers]) and [ma] (from
    [oldServers]): the set of the server numbers of a list. *)
Definition serverNumberSet (servers : list elem) : gset Z :=
  foldl (λ (mb : gset Z) x,
           match x with
           | EOther _ => mb
           | EMap srv =>
               match asIntOk (index srv "server_number") with
               | Some serverNum => {[serverNum]} ∪ mb
               | None => mb
               end
           end) ∅ servers.

(** The loops that fill [serversToRemove] (over [oldServers], against
    [mb]) and [serversToAdd] (over [newServers], against [ma]). *)
Definition serversNotFound (m : gset Z) (servers : list elem)
    : list HetznerRobotVSwitchServer :=
  foldl (λ (acc : list HetznerRobotVSwitchServer) x,
           match x with
           | EOther _ => acc
           | EMap srv =>
               match asIntOk (index srv "server_number") with
               | None => acc
               | Some srvNum =>
                   if decide (srvNum ∈ m) then acc
                   else acc ++ [serverOfNumber srvNum]
               end
           end) [] servers.

Definition resourceVSwitchUpdate (d : ResourceData) (meta : Meta)
    : M (diag.Diagnostics * ResourceData) :=
  match meta with
  | MetaOther =>
      ret (diag.Errorf "Unable to cast meta to HetznerRobotClient", d)
  | MetaClient c =>
      let vSwitchID := rd_Id d in
      let name := attrString (rd_Get d "name") in
      let vlan := attrInt (rd_Get d "vlan") in
      err <~ updateVSwitch c vSwitchID name vlan ;;
      match err with
      | Some err =>
          ret (diag.Errorf ("Unable to update VSwitch:" +:+ nl_tab +:+ " "
                            +:+ fmt_q R err), d)
      | None =>
          _ <~ (if rd_HasChange d "servers" then
                  let '(o, n) := rd_GetChange d "servers" in
                  let oldServers := attrList o in
                  let newServers := attrList n in
                  let mb := serverNumberSet newServers in
                  let serversToRemove := serversNotFound mb oldServers in
                  err <~ removeVSwitchServers c vSwitchID serversToRemove ;;
                  (* the diagnostics built here are not kept *)
                  let _ :=
                    match err with
                    | Some err =>
                        diag.Errorf ("Unable to remove servers from VSwitch:"
                                     +:+ nl_tab +:+ " " +:+ fmt_q R err)
                    | None => []
                    end in
                  let ma := serverNumberSet oldServers in
                  let serversToAdd := serversNotFound ma newServers in
                  err <~ addVSwitchServers c vSwitchID serversToAdd ;;
                  (* nor are these *)
                  let _ :=
                    match err with
                    | Some err =>
                        diag.Errorf ("Unable to add servers to VSwitch:"
                                     +:+ nl_tab +:+ " " +:+ fmt_q R err)
                    | None => []
                    end in
                  ret tt
                else ret tt) ;;
          resourceVSwitchRead d meta
      end
  end.

End Client.

(** ** Vocabulary of the statements *)

(** A string without a closing bracket, as the decimal form of an index. *)
Fixpoint bracket_free (s : string) : Prop :=
  match s with
  | EmptyString => True
  | String a s' => a ≠ "]"%char ∧ bracket_free s'
  end.

(** What the encoder writes under [field] of a rule's group, read off the
    conditions of [encodeRule]; [None] when it writes nothing there. *)
Definition emitted (rule : HetznerRobotFirewallRule) (field : string)
    : option string :=
  if decide (field = "name") then Some (Name rule)
  else if decide (field = "ip_version") then Some (effectiveIPVersion rule)
  else if decide (field = "action") then Some (Action rule)
  else if decide (field = "src_ip") then
    if decide (effectiveIPVersion rule ≠ "ipv6") then Some (SrcIP rule)
    else None
  else if decide (field = "dst_ip") then
    if decide (effectiveIPVersion rule ≠ "ipv6") then
      if decide (DstIP rule ≠ "") then Some (DstIP rule) else None
    else None
  else if decide (field = "dst_port") then Some (DstPort rule)
  else if decide (field = "src_port") then
    if decide (SrcPort rule ≠ "") then Some (SrcPort rule) else None
  else if decide (field = "protocol") then
    if decide (Protocol rule ≠ "") then Some (Protocol rule) else None
  else if decide (field = "tcp_flags") then
    if decide (TCPFlags rule ≠ "") then Some (TCPFlags rule) else None
  else None.

(** The keys of the payload that belong to no input rule group. *)
Definition fixedKeys : list string :=
  ["whitelist_hos"; "status"; "rules[output][0][name]";
   "rules[output][0][action]"].

(** Diagnostics and rules [resourceFirewallCreate] collects from the
    declared [rule] blocks. *)
Definition declaredRules (d : ResourceData)
    : diag.Diagnostics * list HetznerRobotFirewallRule :=
  foldl createRuleStep ([], []) (attrList (rd_Get d "rule")).

(** The declared [rule] blocks, in their order: the entries of the list
    that pass the assertion [ruleMap.(map[string]any)]. *)
Definition declaredBlocks (d : ResourceData) : list (gmap string value) :=
  omap (λ x, match x with EMap p => Some p | EOther _ => None end)
    (attrList (rd_Get d "rule")).

(** The value [resourceFirewallCreate] hands to [setFirewall]. *)
Definition declaredFirewall (d : ResourceData) : HetznerRobotFirewall :=
  {| IP := attrString (rd_Get d "server_ip");
     WhitelistHetznerServices := attrBool (rd_Get d "whitelist_hos");
     Status := if attrBool (rd_Get d "active") then "active" else "disabled";
     Rules := {| Input := snd (declaredRules d) |} |}.

(** The request [setFirewall] posts for a firewall. *)
Definition firewallRequest (c : HetznerRobotClient)
    (firewall : HetznerRobotFirewall) : Request :=
  {| req_method := "POST";
     req_uri := url c +:+ "/firewall/" +:+ IP firewall;
     req_form := Some (setFirewallData firewall);
     req_content_type := Some "application/x-www-form-urlencoded";
     req_basic_auth := (username c, password c) |}.

(** The key of a member, when it has one. *)
Definition serverNumber (x : elem) : option Z :=
  match x with
  | EMap srv => asIntOk (index srv "server_number")
  | EOther _ => None
  end.

(** The keys of a member sequence, in its order. *)
Definition serverKeys (servers : list elem) : list Z :=
  omap serverNumber servers.

(** The remove call and the add call of [resourceVSwitchUpdate], in the
    order of the source; none when the server list did not change. *)
Definition membershipEvents (d : ResourceData) : list Event :=
  if rd_HasChange d "servers" then
    let oldServers := attrList (fst (rd_GetChange d "servers")) in
    let newServers := attrList (snd (rd_GetChange d "servers")) in
    [EvRemoveVSwitchServers (rd_Id d)
       (serversNotFound (serverNumberSet newServers) oldServers);
     EvAddVSwitchServers (rd_Id d)
       (serversNotFound (serverNumberSet oldServers) newServers)]
  else [].

(** ** Concrete inputs *)

(** A stand-in for the verb [%q]: the text between two quotation marks. *)
Definition goQuote (s : string) : string :=
  String (Ascii.ascii_of_nat 34) (s +:+ String (Ascii.ascii_of_nat 34) "").

Definition exampleClient : HetznerRobotClient :=
  NewHetznerRobotClient "user" "secret" "https://robot-ws.your-server.de".

Definition exampleVSwitch : HetznerRobotVSwitch :=
  {| vsID := 4321; vsName := "lan"; vsVlan := 4000; vsCanceled := false;
     vsServer := []; vsSubnet := []; vsCloudNetwork := [] |}.

(** A remote side on which every call succeeds. *)
Definition remoteOk : Remote :=
  {| http_NewRequest := λ _ _, None;
     http_Do := λ _ _, Response 200 "{}";
     vs_update := λ _ _ _ _, None;
     vs_remove := λ _ _ _, None;
     vs_add := λ _ _ _, None;
     vs_get := λ _ _, Ok exampleVSwitch;
     fmt_q := goQuote |}.

(** A remote side that refuses to detach servers. *)
Definition remoteRemoveFails : Remote :=
  {| http_NewRequest := λ _ _, None;
     http_Do := λ _ _, Response 200 "{}";
     vs_update := λ _ _ _ _, None;
     vs_remove := λ _ _ _, Some "server is locked";
     vs_add := λ _ _ _, None;
     vs_get := λ _ _, Ok exampleVSwitch;
     fmt_q := goQuote |}.

(** A remote side that answers every request with status 500. *)
Definition remoteHttp500 : Remote :=
  {| http_NewRequest := λ _ _, None;
     http_Do := λ _ _, Response 500 "internal error";
     vs_update := λ _ _ _ _, None;
     vs_remove := λ _ _ _, None;
     vs_add := λ _ _ _, None;
     vs_get := λ _ _, Ok exampleVSwitch;
     fmt_q := goQuote |}.

(** A declared member: only the server number is caller-supplied. *)
Definition member (n : Z) : elem := EMap {[ "server_number" := VInt n ]}.

(** The data of a vSwitch whose server list went from [old] to [new]. *)
Definition switchData (old new : list Z) : ResourceData :=
  {| rd_id := "4321";
     rd_state := {[ "servers" := AList (member <$> old) ]};
     rd_config := <["name" := APrim (VString "lan")]>
                  (<["vlan" := APrim (VInt 4000)]>
                   {[ "servers" := AList (member <$> new) ]}) |}.

(** An ipv6 rule block that declares a source address. *)
Definition ipv6RuleBlock : gmap string value :=
  <["name" := VString "web6"]>
  (<["src_ip" := VString "2001:db8::/32"]>
  (<["dst_port" := VString "443"]>
  (<["protocol" := VString "tcp"]>
  (<["action" := VString "accept"]>
  {[ "ip_version" := VString "ipv6" ]})))).

(** An ipv4 rule block that leaves every optional field empty. *)
Definition bareRuleBlock : gmap string value :=
  <["name" := VString "drop"]>
  (<["action" := VString "discard"]>
  {[ "ip_version" := VString "ipv4" ]}).

(** The data of a firewall resource with the given flags and rule blocks. *)
Definition firewallData (active whitelist : bool)
    (blocks : list (gmap string value)) : ResourceData :=
  {| rd_id := "";
     rd_state := ∅;
     rd_config := <["server_ip" := APrim (VString "1.1.1.1")]>
                  (<["active" := APrim (VBool active)]>
                  (<["whitelist_hos" := APrim (VBool whitelist)]>
                   {[ "rule" := AList (EMap <$> blocks) ]})) |}.

(** The rule built from [ipv6RuleBlock]: the declared address is kept. *)
Definition ipv6Rule : HetznerRobotFirewallRule :=
  {| Name := "web6"; DstIP := ""; DstPort := "443";
     SrcIP := "2001:db8::/32"; SrcPort := ""; Protocol := "tcp";
     TCPFlags := ""; Action := "accept"; IPVersion := "ipv6" |}.

(** The rule built from [bareRuleBlock]. *)
Definition bareRule : HetznerRobotFirewallRule :=
  {| Name := "drop"; DstIP := ""; DstPort := ""; SrcIP := ""; SrcPort := "";
     Protocol := ""; TCPFlags := ""; Action := "discard";
     IPVersion := "ipv4" |}.

(** A firewall whose input rules are [rules]. *)
Definition firewallOf (rules : list HetznerRobotFirewallRule)
    : HetznerRobotFirewall :=
  {| IP := "1.1.1.1"; WhitelistHetznerServices := false;
     Status := "active"; Rules := {| Input := rules |} |}.

(** [ResourceData] with another prior state. *)
Definition withState (st : gmap string attr) (d : ResourceData)
    : ResourceData :=
  {| rd_id := rd_id d; rd_state := st; rd_config := rd_config d |}.

(** ** The reading side of the firewall ([client_firewall.go],
    [resource_firewall.go]) *)

Record HetznerRobotFirewallResponse : Type := mkFirewallResponse {
  Firewall : HetznerRobotFirewall
}.

(** Keys declared by the schema of [resourceFirewall]. *)
Definition firewallSchemaKeys : list string :=
  ["server_ip"; "active"; "whitelist_hos"; "rule"].

(** The [map[string]any] the read and the import build from a remote
    rule. *)
Definition ruleToElem (rule : HetznerRobotFirewallRule) : elem :=
  EMap (<["name" := VString (Name rule)]>
        (<["src_ip" := VString (SrcIP rule)]>
        (<["src_port" := VString (SrcPort rule)]>
        (<["dst_ip" := VString (DstIP rule)]>
        (<["dst_port" := VString (DstPort rule)]>
        (<["protocol" := VString (Protocol rule)]>
        (<["tcp_flags" := VString (TCPFlags rule)]>
        (<["action" := VString (Action rule)]>
        (<["ip_version" := VString (IPVersion rule)]> ∅))))))))).

Section Readers.

Variable R : Remote.

(** [json.Unmarshal(bytes, &firewall)] of the standard library on a
    [HetznerRobotFirewallResponse]: the decoded value or the error. *)
Variable json_Unmarshal : string → result HetznerRobotFirewallResponse.

(** The vSwitch client methods [createVSwitch] and [deleteVSwitch] are not
    among the sources: they are taken as they are, whatever calls they
    issue. *)
Variable createVSwitch :
  HetznerRobotClient → string → Z → M (result HetznerRobotVSwitch).
Variable deleteVSwitch : HetznerRobotClient → string → M (option string).

Definition getFirewall (c : HetznerRobotClient) (ip : string)
    : M (result HetznerRobotFirewall) :=
  r <~ makeAPICall R c "GET" (url c +:+ "/firewall/" +:+ ip) None
         [200%Z; 202%Z] ;;
  match r with
  | Err err => ret (Err err)
  | Ok bytes =>
      match json_Unmarshal bytes with
      | Err err => ret (Err err)
      | Ok firewall => ret (Ok (Firewall firewall))
      end
  end.

Definition resourceFirewallImportState (d : ResourceData) (m : Meta)
    : M (result (list ResourceData)) :=
  match m with
  | MetaOther => ret (Err "unable to cast meta to HetznerRobotClient")
  | MetaClient c =>
      let firewallID := rd_Id d in
      r <~ getFirewall c firewallID ;;
      match r with
      | Err err =>
          ret (Err ("could not find firewall with ID " +:+ firewallID
                    +:+ ": " +:+ err))
      | Ok firewall =>
          let active := bool_decide (Status firewall = "active") in
          let rules := ruleToElem <$> Input (Rules firewall) in
          let set := rd_Set firewallSchemaKeys in
          let d := set "active" (APrim (VBool active)) d in
          let d := set "rule" (AList rules) d in
          let d := set "server_ip" (APrim (VString (IP firewall))) d in
          let d := set "whitelist_hos"
                     (APrim (VBool (WhitelistHetznerServices firewall))) d in
          let d := rd_SetId (IP firewall) d in
          ret (Ok [d])
      end
  end.

Definition resourceFirewallRead (d : ResourceData) (m : Meta)
    : M (diag.Diagnostics * ResourceData) :=
  match m with
  | MetaOther =>
      ret (diag.Errorf "Unable to cast meta to HetznerRobotClient", d)
  | MetaClient c =>
      let serverIP := rd_Id d in
      r <~ getFirewall c serverIP ;;
      match r with
      | Err err => ret (diag.FromErr err, d)
      | Ok firewall =>
          let active := bool_decide (Status firewall = "active") in
          let rules := ruleToElem <$> Input (Rules firewall) in
          let set := rd_Set firewallSchemaKeys in
          let d := set "active" (APrim (VBool active)) d in
          let d := set "rule" (AList rules) d in
          let d := set "server_ip" (APrim (VString (IP firewall))) d in
          let d := set "whitelist_hos"
                     (APrim (VBool (WhitelistHetznerServices firewall))) d in
          let diags : diag.Diagnostics := [] in
          ret (diags, d)
      end
  end.

(** ** The other hooks of the vSwitch resource *)

Definition resourceVSwitchImportState (d : ResourceData) (meta : Meta)
    : M (result (list ResourceData)) :=
  match meta with
  | MetaOther => ret (Err "unable to cast meta to HetznerRobotClient")
  | MetaClient c =>
      let vSwitchID := rd_Id d in
      r <~ getVSwitch R c vSwitchID ;;
      match r with
      | Err err =>
          ret (Err ("unable to find VSwitch with ID " +:+ vSwitchID
                    +:+ ": " +:+ err))
      | Ok vSwitch =>
          let set := rd_Set vSwitchSchemaKeys in
          let d := set "name" (APrim (VString (vsName vSwitch))) d in
          let d := set "vlan" (APrim (VInt (vsVlan vSwitch))) d in
          let d := set "is_canceled"
                     (APrim (VBool (vsCanceled vSwitch))) d in
          let d := set "servers"
                     (AList (serverToElem <$> vsServer vSwitch)) d in
          let d := set "subnets"
                     (AList (subnetToElem <$> vsSubnet vSwitch)) d in
          let d := set "cloud_networks"
                     (AList (cloudNetworkToElem <$> vsCloudNetwork vSwitch))
                     d in
          ret (Ok [d])
      end
  end.

Definition resourceVSwitchCreate (d : ResourceData) (meta : Meta)
    : M (diag.Diagnostics * ResourceData) :=
  match meta with
  | MetaOther =>
      ret (diag.Errorf "Unable to cast meta to HetznerRobotClient", d)
  | MetaClient c =>
      let name := attrString (rd_Get d "name") in
      let vlan := attrInt (rd_Get d "vlan") in
      r <~ createVSwitch c name vlan ;;
      match r with
      | Err err =>
          ret (diag.FromErr ("unable to create VSwitch: " +:+ err), d)
      | Ok vSwitch =>
          let set := rd_Set vSwitchSchemaKeys in
          let d := set "is_canceled"
                     (APrim (VBool (vsCanceled vSwitch))) d in
          let d := set "servers"
                     (AList (serverToElem <$> vsServer vSwitch)) d in
          let d := set "subnets"
                     (AList (subnetToElem <$> vsSubnet vSwitch)) d in
          let d := set "cloud_networks"
                     (AList (cloudNetworkToElem <$> vsCloudNetwork vSwitch))
                     d in
          (* strconv.Itoa *)
          let d := rd_SetId (pretty (vsID vSwitch)) d in
          let diags : diag.Diagnostics := [] in
          ret (diags, d)
      end
  end.

Definition resourceVSwitchDelete (d : ResourceData) (meta : Meta)
    : M (diag.Diagnostics * ResourceData) :=
  match meta with
  | MetaOther =>
      ret (diag.Errorf "Unable to cast meta to HetznerRobotClient", d)
  | MetaClient c =>
      let vSwitchID := rd_Id d in
      err <~ deleteVSwitch c vSwitchID ;;
      match err with
      | Some err =>
          ret (diag.FromErr ("unable to find VSwitch with ID " +:+ vSwitchID
                             +:+ ": " +:+ err), d)
      | None =>
          let diags : diag.Diagnostics := [] in
          ret (diags, d)
      end
  end.

End Readers.

(** ** The provider configuration *)

(** [providerConfigure]: the value it returns is the [meta] of every hook;
    [nil] is a value that is no client. *)
Definition providerConfigure (d : ResourceData) : Meta * diag.Diagnostics :=
  match rd_Get d "username" with
  | APrim (VString username) =>
      match rd_Get d "password" with
      | APrim (VString password) =>
          match rd_Get d "url" with
          | APrim (VString url) =>
              if decide (username = "") then
                (MetaOther,
                 diag.Errorf
                   "username is required for Hetzner Robot authentication")
              else if decide (password = "") then
                (MetaOther,
                 diag.Errorf
                   "password is required for Hetzner Robot authentication")
              else
                let client := NewHetznerRobotClient username password url in
                let diags : diag.Diagnostics := [] in
                (MetaClient client, diags)
          | _ => (MetaOther, diag.Errorf "url must be a string")
          end
      | _ => (MetaOther, diag.Errorf "password must be a string")
      end
  | _ => (MetaOther, diag.Errorf "username must be a string")
  end.

(** ** Vocabulary of the further statements *)

(** The request [makeAPICall] sends once it could build it. *)
Definition apiRequest (c : HetznerRobotClient) (method uri : string)
    (data : option Values) : Request :=
  {| req_method := method; req_uri := uri; req_form := data;
     req_content_type :=
       match data with
       | Some _ => Some "application/x-www-form-urlencoded"
       | None => None
       end;
     req_basic_auth := (username c, password c) |}.

(** The request [getFirewall] sends for the firewall of [ip]. *)
Definition firewallFetch (c : HetznerRobotClient) (ip : string) : Request :=
  {| req_method := "GET";
     req_uri := url c +:+ "/firewall/" +:+ ip;
     req_form := None;
     req_content_type := None;
     req_basic_auth := (username c, password c) |}.

(** A rule as the encoder reads it: an empty address family is ipv4, and
    the addresses of an ipv6 rule are not looked at. *)
Definition normalizeRule (rule : HetznerRobotFirewallRule)
    : HetznerRobotFirewallRule :=
  {| Name := Name rule;
     DstIP := if decide (effectiveIPVersion rule = "ipv6") then ""
              else DstIP rule;
     DstPort := DstPort rule;
     SrcIP := if decide (effectiveIPVersion rule = "ipv6") then ""
              else SrcIP rule;
     SrcPort := SrcPort rule;
     Protocol := Protocol rule;
     TCPFlags := TCPFlags rule;
     Action := Action rule;
     IPVersion := effectiveIPVersion rule |}.

(** A rule with its address family defaulted, as the create loop builds it
    from a block. *)
Definition defaultVersion (rule : HetznerRobotFirewallRule)
    : HetznerRobotFirewallRule :=
  {| Name := Name rule; DstIP := DstIP rule; DstPort := DstPort rule;
     SrcIP := SrcIP rule; SrcPort := SrcPort rule; Protocol := Protocol rule;
     TCPFlags := TCPFlags rule; Action := Action rule;
     IPVersion := effectiveIPVersion rule |}.

(** The warnings the create loop raises for a rule. *)
Definition ruleWarnings (rule : HetznerRobotFirewallRule)
    : diag.Diagnostics :=
  if decide (effectiveIPVersion rule = "ipv6") then
    (if decide (SrcIP rule ≠ "") then [ipv6SrcWarning (Name rule)] else [])
    ++ (if decide (DstIP rule ≠ "") then [ipv6DstWarning (Name rule)] else [])
  else [].

(** A decoder that answers one fixed firewall. *)
Definition decodeAs (firewall : HetznerRobotFirewall)
    : string → result HetznerRobotFirewallResponse :=
  λ _, Ok {| Firewall := firewall |}.

(** A remote firewall with one ipv4 rule and an ipv6 rule. *)
Definition remoteFirewall : HetznerRobotFirewall :=
  {| IP := "1.2.3.4"; WhitelistHetznerServices := true; Status := "active";
     Rules := {| Input := [bareRule; ipv6Rule] |} |}.

(** Resource data that hold an identity and nothing else. *)
Definition importData (id : string) : ResourceData :=
  {| rd_id := id; rd_state := ∅; rd_config := ∅ |}.

(** The data of a provider block. *)
Definition providerData (username password url : string) : ResourceData :=
  {| rd_id := ""; rd_state := ∅;
     rd_config := <["username" := APrim (VString username)]>
                  (<["password" := APrim (VString password)]>
                   {[ "url" := APrim (VString url) ]}) |}.

(** ** Substring search of the test helpers ([contains], [findInString]) *)

(** [s[lo:hi]] on a Go string, for [lo <= hi <= len(s)]. *)
Definition slice (s : string) (lo hi : nat) : string :=
  String.substring lo (hi - lo) s.

(** The loop of [findInString], entered at index [i] with [n] iterations
    left. *)
Fixpoint findInString_loop (s substr : string) (i n : nat) : bool :=
  match n with
  | 0 => false
  | S n' =>
      if decide (slice s i (i + String.length substr) = substr) then true
      else findInString_loop s substr (S i) n'
  end.

(** [for i := 0; i <= len(s)-len(substr); i++]: the bound is a signed
    difference, so the body never runs when [s] is the shorter string. *)
Definition findInString (s substr : string) : bool :=
  findInString_loop s substr 0
    (Z.to_nat (Z.of_nat (String.length s) - Z.of_nat (String.length substr)
               + 1)).

Definition contains (s substr : string) : bool :=
  bool_decide (String.length substr ≤ String.length s)%nat
  && (bool_decide (s = substr)
      || bool_decide (String.length substr = 0)
      || (bool_decide (String.length substr < String.length s)%nat
          && (bool_decide (slice s 0 (String.length substr) = substr)
              || bool_decide
                   (slice s (String.length s - String.length substr)
                      (String.length s) = substr)
              || findInString s substr))).

(** A rule block that declares no address family. *)
Definition unversionedRuleBlock : gmap string value :=
  <["name" := VString "drop"]> {[ "action" := VString "discard" ]}.

(** * Properties *)

(** ** Keys of the payload *)

Lemma app_bracket_inv (a b x y : string) :
  bracket_free a → bracket_free b →
  a +:+ String "]" x = b +:+ String "]" y → a = b ∧ x = y.
Proof.
  revert b. induction a as [|c a IH]; intros [|c' b]; simpl.
  - intros _ _ [= ->]. done.
  - intros _ [Hc _] [= Hc' _]. by destruct Hc.
  - intros [Hc _] _ [= Hc' _]. by destruct Hc.
  - intros [_ Ha] [_ Hb] [= -> Heq].
    destruct (IH b Ha Hb Heq) as [-> ->]. done.
Qed.

Lemma string_length_app (s t : string) :
  String.length (s +:+ t) = String.length s + String.length t.
Proof. induction s as [|c s IH]; simpl; [done | by rewrite IH]. Qed.

Lemma string_app_inj_r (s1 s2 t : string) : s1 +:+ t = s2 +:+ t → s1 = s2.
Proof.
  revert s2. induction s1 as [|c s1 IH]; intros [|c' s2]; simpl; intros Heq.
  - done.
  - apply (f_equal String.length) in Heq.
    rewrite !string_length_app in Heq. simpl in Heq. lia.
  - apply (f_equal String.length) in Heq.
    rewrite !string_length_app in Heq. simpl in Heq. lia.
  - injection Heq as -> Heq. f_equal. by apply IH.
Qed.

Lemma pretty_N_go_bracket_free (x : N) (s : string) :
  bracket_free s → bracket_free (pretty_N_go x s).
Proof.
  revert s. induction (N.lt_wf_0 x) as [x _ IH]; intros s Hs.
  assert (x = 0 ∨ 0 < x)%N as [->|Hpos] by lia.
  - by rewrite pretty_N_go_0.
  - rewrite pretty_N_go_step by done. apply IH.
    + by apply N.div_lt.
    + simpl. split; [|done]. unfold pretty_N_char. by repeat case_match.
Qed.

Lemma pretty_nat_bracket_free (n : nat) : bracket_free (pretty n).
Proof.
  unfold pretty, pretty_nat, pretty, pretty_N.
  case_decide; [simpl; done | by apply pretty_N_go_bracket_free].
Qed.

(** Two field keys coincide only for the same index and the same field. *)
Lemma inputKey_inj (i j : nat) (f g : string) :
  inputKey i f = inputKey j g → i = j ∧ f = g.
Proof.
  unfold inputKey. intros Heq.
  apply (inj (String.app _)) in Heq.
  change ("][" +:+ f +:+ "]") with (String "]" (String "[" (f +:+ "]"))) in Heq.
  change ("][" +:+ g +:+ "]") with (String "]" (String "[" (g +:+ "]"))) in Heq.
  apply app_bracket_inv in Heq as [Hp [= Hf]];
    auto using pretty_nat_bracket_free.
  split; [by apply (inj pretty) | by apply string_app_inj_r in Hf].
Qed.

Lemma inputKey_not_fixed (j : nat) (f : string) : inputKey j f ∉ fixedKeys.
Proof.
  unfold fixedKeys, inputKey. rewrite !elem_of_cons, elem_of_nil. simpl.
  intros [H|[H|[H|[H|[]]]]]; discriminate H.
Qed.

Lemma fixedKeys_not_input (k : string) (j : nat) (f : string) :
  k ∈ fixedKeys → k ≠ inputKey j f.
Proof. intros Hin ->. by apply (inputKey_not_fixed j f). Qed.

(** ** Lookups in the encoded payload *)

Ltac key_neq :=
  let H := fresh in
  intros H; apply inputKey_inj in H; destruct H; congruence.

Ltac lookup_keys :=
  repeat first
    [ rewrite lookup_insert_eq
    | rewrite lookup_insert_ne by key_neq ].

Lemma encodeRule_lookup_ne idx rule (data : Values) j f :
  j ≠ idx → encodeRule idx rule data !! inputKey j f = data !! inputKey j f.
Proof.
  intros Hne. unfold encodeRule, values_Set.
  repeat case_decide; by lookup_keys.
Qed.

Lemma encodeRule_lookup_other idx rule (data : Values) k :
  (∀ j f, k ≠ inputKey j f) →
  encodeRule idx rule data !! k = data !! k.
Proof.
  intros Hne. unfold encodeRule, values_Set.
  repeat case_decide;
    by rewrite !lookup_insert_ne by (by intros ?%symmetry%Hne).
Qed.

Lemma encodeRule_lookup idx rule (data : Values) f :
  encodeRule idx rule data !! inputKey idx f =
    match emitted rule f with
    | Some v => Some [v]
    | None => data !! inputKey idx f
    end.
Proof.
  unfold encodeRule, emitted, values_Set.
  repeat case_decide; subst; by lookup_keys.
Qed.

Lemma encodeRule_lookup_Some idx rule (data : Values) k x :
  encodeRule idx rule data !! k = Some x →
  data !! k = Some x ∨ ∃ f, k = inputKey idx f.
Proof.
  unfold encodeRule, values_Set. intros H.
  repeat case_decide;
    repeat (apply lookup_insert_Some in H as [[<- _]|[_ H]];
            [right; by eexists|]);
    by left.
Qed.

Lemma encodeRules_lookup_other rules : ∀ idx (data : Values) k,
  (∀ j f, k ≠ inputKey j f) →
  encodeRules idx rules data !! k = data !! k.
Proof.
  induction rules as [|rule rest IH]; intros idx data k Hk; simpl; [done|].
  rewrite IH by done. by apply encodeRule_lookup_other.
Qed.

Lemma encodeRules_lookup_lt rules : ∀ idx (data : Values) j f,
  j < idx → encodeRules idx rules data !! inputKey j f = data !! inputKey j f.
Proof.
  induction rules as [|rule rest IH]; intros idx data j f Hlt; simpl; [done|].
  rewrite IH by lia. apply encodeRule_lookup_ne. lia.
Qed.

Lemma encodeRules_lookup rules : ∀ idx (data : Values) i f,
  encodeRules idx rules data !! inputKey (idx + i) f =
    match rules !! i with
    | Some rule =>
        match emitted rule f with
        | Some v => Some [v]
        | None => data !! inputKey (idx + i) f
        end
    | None => data !! inputKey (idx + i) f
    end.
Proof.
  induction rules as [|rule rest IH]; intros idx data i f; simpl; [done|].
  destruct i as [|i]; simpl.
  - rewrite Nat.add_0_r, encodeRules_lookup_lt by lia.
    apply encodeRule_lookup.
  - replace (idx + S i) with (S idx + i) by lia.
    rewrite IH. by rewrite encodeRule_lookup_ne by lia.
Qed.

Lemma encodeRules_lookup_Some rules : ∀ idx (data : Values) k x,
  encodeRules idx rules data !! k = Some x →
  data !! k = Some x ∨ ∃ j f, k = inputKey j f.
Proof.
  induction rules as [|rule rest IH]; intros idx data k x; simpl; [by left|].
  intros [H|H]%IH; [|by right].
  apply encodeRule_lookup_Some in H as [H|[f ->]]; eauto.
Qed.

(** The group of index [i] holds what the encoder emits for the [i]-th
    rule, and nothing when there is no such rule. *)
Lemma setFirewallData_input firewall i f :
  setFirewallData firewall !! inputKey i f =
    rule ← Input (Rules firewall) !! i; (λ v, [v]) <$> emitted rule f.
Proof.
  unfold setFirewallData, values_Set.
  pose proof (inputKey_not_fixed i f) as Hfix.
  unfold fixedKeys in Hfix. rewrite !not_elem_of_cons in Hfix.
  destruct Hfix as (H1 & H2 & H3 & H4 & _).
  rewrite !lookup_insert_ne by done.
  rewrite (encodeRules_lookup _ 0 _ i f). simpl.
  rewrite !lookup_insert_ne by done. rewrite lookup_empty.
  destruct (Input (Rules firewall) !! i) as [rule|]; simpl; [|done].
  by destruct (emitted rule f).
Qed.

Lemma setFirewallData_fixed firewall :
  setFirewallData firewall !! "whitelist_hos" =
    Some [if WhitelistHetznerServices firewall then "true" else "false"] ∧
  setFirewallData firewall !! "status" = Some [Status firewall] ∧
  setFirewallData firewall !! "rules[output][0][name]" = Some ["Allow all"] ∧
  setFirewallData firewall !! "rules[output][0][action]" = Some ["accept"].
Proof.
  unfold setFirewallData, values_Set.
  repeat split.
  - rewrite !lookup_insert_ne by done.
    rewrite encodeRules_lookup_other.
    + rewrite lookup_insert_ne by done. by rewrite lookup_insert_eq.
    + intros j f. apply fixedKeys_not_input. unfold fixedKeys.
      rewrite !elem_of_cons. tauto.
  - rewrite !lookup_insert_ne by done.
    rewrite encodeRules_lookup_other.
    + by rewrite lookup_insert_eq.
    + intros j f. apply fixedKeys_not_input. unfold fixedKeys.
      rewrite !elem_of_cons. tauto.
  - rewrite lookup_insert_ne by done. by rewrite lookup_insert_eq.
  - by rewrite lookup_insert_eq.
Qed.

(** Every key of the payload is a fixed key or a field the encoder emits
    for one of the rules. *)
Lemma setFirewallData_dom firewall k :
  is_Some (setFirewallData firewall !! k) →
  k ∈ fixedKeys
  ∨ ∃ i f rule v, k = inputKey i f ∧ Input (Rules firewall) !! i = Some rule
                  ∧ emitted rule f = Some v.
Proof.
  intros [x Hx].
  assert (k ∈ fixedKeys ∨ ∃ j f, k = inputKey j f) as [?|(j & f & ->)].
  { revert Hx. unfold setFirewallData, values_Set, fixedKeys.
    rewrite !elem_of_cons.
    rewrite lookup_insert_Some. intros [[<- _]|[_ Hx]]; [tauto|].
    revert Hx. rewrite lookup_insert_Some. intros [[<- _]|[_ Hx]]; [tauto|].
    apply encodeRules_lookup_Some in Hx as [Hx|?]; [|by right].
    revert Hx. rewrite lookup_insert_Some. intros [[<- _]|[_ Hx]]; [tauto|].
    revert Hx. rewrite lookup_insert_Some. intros [[<- _]|[_ Hx]]; [tauto|].
    by rewrite lookup_empty in Hx. }
  - by left.
  - right. rewrite setFirewallData_input in Hx.
    destruct (Input (Rules firewall) !! j) as [rule|] eqn:Hr;
      simpl in Hx; [|done].
    destruct (emitted rule f) as [v|] eqn:Hv; simpl in Hx; [|done].
    by exists j, f, rule, v.
Qed.

(** ** The encoder *)

(** C4, counterexample: a rule with an empty source address and an empty
    destination port still gets a [src_ip] and a [dst_port] field in its
    group, both holding the empty string. *)
Lemma C4_empty_fields_emitted :
  SrcIP bareRule = "" ∧ DstPort bareRule = "" ∧
  setFirewallData (firewallOf [bareRule]) !! inputKey 0 "src_ip" = Some [""] ∧
  setFirewallData (firewallOf [bareRule]) !! inputKey 0 "dst_port" = Some [""].
Proof. repeat split; vm_compute; reflexivity. Qed.

(** C4, as amended: in the group of every rule the encoder always writes
    the name, the address family, the action and the destination port; it
    writes the source address exactly when the address family is not ipv6
    (empty or not); the destination address exactly when the address family
    is not ipv6 and the address is not empty; the source port, the protocol
    and the TCP flags exactly when they are not empty. *)
Theorem C4_emitted_fields firewall i rule :
  Input (Rules firewall) !! i = Some rule →
  let data := setFirewallData firewall in
  data !! inputKey i "name" = Some [Name rule] ∧
  data !! inputKey i "ip_version" = Some [effectiveIPVersion rule] ∧
  data !! inputKey i "action" = Some [Action rule] ∧
  data !! inputKey i "dst_port" = Some [DstPort rule] ∧
  data !! inputKey i "src_ip" =
    (if decide (effectiveIPVersion rule ≠ "ipv6") then Some [SrcIP rule]
     else None) ∧
  data !! inputKey i "dst_ip" =
    (if decide (effectiveIPVersion rule ≠ "ipv6" ∧ DstIP rule ≠ "")
     then Some [DstIP rule] else None) ∧
  data !! inputKey i "src_port" =
    (if decide (SrcPort rule ≠ "") then Some [SrcPort rule] else None) ∧
  data !! inputKey i "protocol" =
    (if decide (Protocol rule ≠ "") then Some [Protocol rule] else None) ∧
  data !! inputKey i "tcp_flags" =
    (if decide (TCPFlags rule ≠ "") then Some [TCPFlags rule] else None).
Proof.
  intros Hi data. subst data.
  rewrite !setFirewallData_input, Hi. simpl. unfold emitted. simpl.
  repeat split; repeat case_decide; simpl; try done; tauto.
Qed.

Lemma C4_emitted_fields_witness :
  setFirewallData (firewallOf [ipv6Rule; bareRule]) !! inputKey 1 "src_ip"
    = Some [""] ∧
  setFirewallData (firewallOf [ipv6Rule; bareRule]) !! inputKey 1 "protocol"
    = None.
Proof.
  destruct (C4_emitted_fields (firewallOf [ipv6Rule; bareRule]) 1 bareRule)
    as (_ & _ & _ & _ & Hsrc & _ & _ & Hproto & _); [reflexivity|].
  split; [exact Hsrc | exact Hproto].
Defined.

(** C5: a rule set of N rules is encoded as the N input groups of indices
    0..N-1, the group of index i holding the fields of the i-th rule, and
    as one output group with name "Allow all" and action "accept"; the
    payload holds no input group of another index and no other output
    field, whatever the caller passed. *)
Theorem C5_indexed_groups firewall :
  let rules := Input (Rules firewall) in
  let data := setFirewallData firewall in
  (∀ i rule, rules !! i = Some rule →
     data !! inputKey i "name" = Some [Name rule] ∧
     data !! inputKey i "ip_version" = Some [effectiveIPVersion rule] ∧
     data !! inputKey i "action" = Some [Action rule] ∧
     ∀ f, data !! inputKey i f = (λ v, [v]) <$> emitted rule f) ∧
  (∀ i f, (length rules ≤ i)%nat → data !! inputKey i f = None) ∧
  data !! "rules[output][0][name]" = Some ["Allow all"] ∧
  data !! "rules[output][0][action]" = Some ["accept"] ∧
  (∀ k, is_Some (data !! k) →
     k ∈ fixedKeys ∨ ∃ i f, i < length rules ∧ k = inputKey i f) ∧
  (∀ s, is_Some (data !! ("rules[output]" +:+ s)) →
     s = "[0][name]" ∨ s = "[0][action]").
Proof.
  intros rules data. subst rules data.
  assert (∀ k, is_Some (setFirewallData firewall !! k) →
     k ∈ fixedKeys ∨
     ∃ i f, i < length (Input (Rules firewall)) ∧ k = inputKey i f) as Hdom.
  { intros k [?|(i & f & rule & v & -> & Hi & _)]%setFirewallData_dom;
      [by left|right].
    exists i, f. split; [|done]. by eapply lookup_lt_Some. }
  destruct (setFirewallData_fixed firewall) as (_ & _ & Hname & Haction).
  split; [|split; [|split; [|split; [|split]]]]; try done.
  - intros i rule Hi. repeat split; try intros f;
      by rewrite setFirewallData_input, Hi.
  - intros i f Hle. rewrite setFirewallData_input.
    by rewrite (lookup_ge_None_2 _ i Hle).
  - intros s [Hfix|(i & f & _ & Heq)]%Hdom.
    + unfold fixedKeys in Hfix. rewrite !elem_of_cons, elem_of_nil in Hfix.
      simpl in Hfix.
      destruct Hfix as [H|[H|[H|[H|[]]]]]; try discriminate H.
      * left. by injection H.
      * right. by injection H.
    + unfold inputKey in Heq. simpl in Heq. discriminate Heq.
Qed.

Lemma C5_indexed_groups_witness :
  setFirewallData (firewallOf [ipv6Rule; bareRule]) !! inputKey 0 "name"
    = Some ["web6"] ∧
  setFirewallData (firewallOf [ipv6Rule; bareRule]) !! inputKey 1 "name"
    = Some ["drop"] ∧
  setFirewallData (firewallOf [ipv6Rule; bareRule]) !! inputKey 2 "name"
    = None.
Proof.
  destruct (C5_indexed_groups (firewallOf [ipv6Rule; bareRule]))
    as (Hgroup & Hnone & _).
  split; [|split].
  - apply (Hgroup 0 ipv6Rule). reflexivity.
  - apply (Hgroup 1 bareRule). reflexivity.
  - apply Hnone. simpl. lia.
Defined.

(** C6, counterexample: with the active flag set and the whitelist flag
    cleared the payload is the one below; the active flag is sent as the
    status "active", and no field holds "true". *)
Lemma C6_active_sent_as_status :
  attrBool (rd_Get (firewallData true false []) "active") = true ∧
  setFirewallData (declaredFirewall (firewallData true false []))
  = <["whitelist_hos" := ["false"]]>
    (<["status" := ["active"]]>
    (<["rules[output][0][name]" := ["Allow all"]]>
    {[ "rules[output][0][action]" := ["accept"] ]})).
Proof. split; vm_compute; reflexivity. Qed.

(** C6, as amended: the whitelist flag is sent under [whitelist_hos] as
    "true" or "false"; the active flag is sent under [status] as "active"
    or "disabled". *)
Theorem C6_flags_serialized (d : ResourceData) :
  let firewall := declaredFirewall d in
  let data := setFirewallData firewall in
  data !! "whitelist_hos" =
    Some [if attrBool (rd_Get d "whitelist_hos") then "true" else "false"] ∧
  data !! "status" =
    Some [if attrBool (rd_Get d "active") then "active" else "disabled"] ∧
  (∀ fw, setFirewallData fw !! "whitelist_hos" =
           Some [if WhitelistHetznerServices fw then "true" else "false"] ∧
         setFirewallData fw !! "status" = Some [Status fw]).
Proof.
  intros firewall data. subst firewall data.
  destruct (setFirewallData_fixed (declaredFirewall d)) as (Hw & Hs & _).
  repeat split; try done; intros; by apply setFirewallData_fixed.
Qed.

(** ** Building the rules from the declared blocks *)

(** The two loop bodies are the same function. *)
Lemma updateRuleStep_createRuleStep acc ruleMap :
  updateRuleStep acc ruleMap = createRuleStep acc ruleMap.
Proof. reflexivity. Qed.

Lemma foldl_updateRuleStep rules_data : ∀ acc,
  foldl updateRuleStep acc rules_data = foldl createRuleStep acc rules_data.
Proof.
  induction rules_data as [|x rest IH]; intros acc; simpl; [done|].
  by rewrite IH, updateRuleStep_createRuleStep.
Qed.

(** A step only appends to its accumulators: what it appends depends on
    the block alone. *)
Lemma createRuleStep_acc diags rules ruleMap :
  createRuleStep (diags, rules) ruleMap
  = (diags ++ fst (createRuleStep ([], []) ruleMap),
     rules ++ snd (createRuleStep ([], []) ruleMap)).
Proof.
  destruct ruleMap as [ruleProperties|v]; simpl.
  - f_equal. repeat case_decide; simpl; by rewrite ?app_nil_r, <- ?app_assoc.
  - by rewrite !app_nil_r.
Qed.

(** The loop keeps the order of the declared blocks: notices and rules are
    the concatenation, block after block, of what each block contributes. *)
Lemma foldl_createRuleStep rules_data : ∀ diags rules,
  foldl createRuleStep (diags, rules) rules_data
  = (diags ++ (rules_data ≫= λ x, fst (createRuleStep ([], []) x)),
     rules ++ (rules_data ≫= λ x, snd (createRuleStep ([], []) x))).
Proof.
  induction rules_data as [|x rest IH]; intros diags rules.
  - simpl. by rewrite !app_nil_r.
  - cbn [foldl]. rewrite createRuleStep_acc, IH.
    rewrite !bind_cons, <- !app_assoc. done.
Qed.

(** Every declared block yields one rule, at the position of the block. *)
Lemma declaredRules_blocks (d : ResourceData)
    (blocks : list (gmap string value)) :
  rd_Get d "rule" = AList (EMap <$> blocks) →
  length (Input (Rules (declaredFirewall d))) = length blocks.
Proof.
  intros Hrule. unfold declaredFirewall, declaredRules. simpl.
  rewrite Hrule. simpl. rewrite foldl_createRuleStep. simpl.
  clear Hrule. induction blocks as [|p rest IH]; [done|].
  rewrite fmap_cons, bind_cons, length_app, IH. reflexivity.
Qed.




(** ** The firewall resource *)

Lemma setFirewall_run R c firewall w :
  setFirewall R c firewall w =
    match http_NewRequest R "POST" (url c +:+ "/firewall/" +:+ IP firewall) with
    | Some err => (Some err, w)
    | None =>
        (match http_Do R w (firewallRequest c firewall) with
         | DoError err => Some ("error sending request: " +:+ err)
         | ReadError err => Some err
         | Response StatusCode body =>
             if codeIsInExpected StatusCode [200%Z; 202%Z] then None
             else Some ("hetzner webservice response status "
                        +:+ pretty StatusCode +:+ ": " +:+ body)
         end,
         w ++ [EvHttp (firewallRequest c firewall)])
    end.
Proof.
  unfold setFirewall, makeAPICall, bind, emit, ret, firewallRequest.
  destruct (http_NewRequest R _ _); [done|].
  destruct (http_Do R w _) as [err|err|code body]; try done.
  by destruct (codeIsInExpected code _).
Qed.

(** Create is the call of [setFirewall] on the declared firewall followed
    by the assignment of the identity. *)
Lemma resourceFirewallCreate_run R d c w :
  resourceFirewallCreate R d (MetaClient c) w =
    let '(err, w') := setFirewall R c (declaredFirewall d) w in
    (match err with
     | Some err => (diag.FromErr err, d)
     | None => (fst (declaredRules d),
                rd_SetId (attrString (rd_Get d "server_ip")) d)
     end, w').
Proof.
  unfold resourceFirewallCreate, declaredFirewall, declaredRules, bind, ret.
  destruct (foldl createRuleStep _ _) as [diags rules]. simpl.
  destruct (setFirewall R c _ w) as [[err|] w']; done.
Qed.

Lemma resourceFirewallUpdate_run R d c w :
  resourceFirewallUpdate R d (MetaClient c) w =
    let '(err, w') := setFirewall R c (declaredFirewall d) w in
    (match err with
     | Some err => (diag.FromErr err, d)
     | None => (fst (declaredRules d), d)
     end, w').
Proof.
  unfold resourceFirewallUpdate, declaredFirewall, declaredRules, bind, ret.
  rewrite foldl_updateRuleStep.
  destruct (foldl createRuleStep _ _) as [diags rules]. simpl.
  destruct (setFirewall R c _ w) as [[err|] w']; done.
Qed.

(** The rule the loop builds from a block. *)
Lemma createRuleStep_rule (p : gmap string value) :
  snd (createRuleStep ([], []) (EMap p))
  = [ {| Name := asString (index p "name");
         DstIP := asString (index p "dst_ip");
         DstPort := asString (index p "dst_port");
         SrcIP := asString (index p "src_ip");
         SrcPort := asString (index p "src_port");
         Protocol := asString (index p "protocol");
         TCPFlags := asString (index p "tcp_flags");
         Action := asString (index p "action");
         IPVersion := match index p "ip_version" with
                      | VString v => if decide (v ≠ "") then v else "ipv4"
                      | _ => "ipv4"
                      end |} ].
Proof. reflexivity. Qed.

(** The rules handed to [setFirewall] are those of the declared blocks,
    block by block. *)
Lemma declaredRules_of_blocks (d : ResourceData) :
  snd (declaredRules d)
  = declaredBlocks d ≫= λ p, snd (createRuleStep ([], []) (EMap p)).
Proof.
  unfold declaredRules, declaredBlocks. rewrite foldl_createRuleStep.
  cbn [snd]. rewrite app_nil_l.
  induction (attrList (rd_Get d "rule")) as [|x rest IH]; [done|].
  rewrite bind_cons, IH. destruct x as [p|v]; [|done].
  cbn [omap list_omap]. by rewrite bind_cons.
Qed.

Lemma declaredRules_lookup (d : ResourceData) (i : nat)
    (p : gmap string value) :
  declaredBlocks d !! i = Some p →
  Input (Rules (declaredFirewall d)) !! i
  = head (snd (createRuleStep ([], []) (EMap p))).
Proof.
  unfold declaredFirewall. cbn [Input Rules].
  rewrite declaredRules_of_blocks. revert i.
  induction (declaredBlocks d) as [|q rest IH]; intros i Hi; [done|].
  rewrite bind_cons, createRuleStep_rule.
  destruct i as [|i].
  - injection Hi as <-. by rewrite createRuleStep_rule.
  - by apply IH.
Qed.

Lemma declaredRules_length (d : ResourceData) :
  length (Input (Rules (declaredFirewall d))) = length (declaredBlocks d).
Proof.
  unfold declaredFirewall. cbn [Input Rules].
  rewrite declaredRules_of_blocks.
  induction (declaredBlocks d) as [|q rest IH]; [done|].
  rewrite bind_cons, createRuleStep_rule, length_app, IH. reflexivity.
Qed.

(** C7: update issues exactly the calls of create and returns its
    diagnostics: one full-replace request whose payload is the encoding of
    the whole declared rule set. It never consults the prior state, so a
    change of the flags alone retransmits every rule group unchanged. The
    form of the request holds, at the index of every declared block, the
    fields of that block that the encoder transmits, and no group
    beyond the last block. *)
Theorem C7_update_same_as_create (R : Remote) (d : ResourceData) (m : Meta)
    (w : World) :
  calls (resourceFirewallUpdate R d m) w
    = calls (resourceFirewallCreate R d m) w ∧
  fst (outcome (resourceFirewallUpdate R d m) w)
    = fst (outcome (resourceFirewallCreate R d m) w) ∧
  (∀ c, m = MetaClient c →
     http_NewRequest R "POST"
       (url c +:+ "/firewall/" +:+ IP (declaredFirewall d)) = None →
     calls (resourceFirewallUpdate R d m) w
       = w ++ [EvHttp (firewallRequest c (declaredFirewall d))]) ∧
  (∀ st, calls (resourceFirewallUpdate R (withState st d) m) w
           = calls (resourceFirewallUpdate R d m) w) ∧
  (∀ d', rd_Get d' "rule" = rd_Get d "rule" →
     Input (Rules (declaredFirewall d')) = Input (Rules (declaredFirewall d)) ∧
     ∀ i f, setFirewallData (declaredFirewall d') !! inputKey i f
            = setFirewallData (declaredFirewall d) !! inputKey i f) ∧
  (∀ c, m = MetaClient c →
     http_NewRequest R "POST"
       (url c +:+ "/firewall/" +:+ attrString (rd_Get d "server_ip")) = None →
     ∃ request data,
       calls (resourceFirewallUpdate R d m) w = w ++ [EvHttp request] ∧
       req_method request = "POST" ∧
       req_uri request
         = url c +:+ "/firewall/" +:+ attrString (rd_Get d "server_ip") ∧
       req_form request = Some data ∧
       (∀ i p, declaredBlocks d !! i = Some p →
          let ipVersion :=
            match index p "ip_version" with
            | VString v => if decide (v ≠ "") then v else "ipv4"
            | _ => "ipv4"
            end in
          data !! inputKey i "name" = Some [asString (index p "name")] ∧
          data !! inputKey i "ip_version" = Some [ipVersion] ∧
          data !! inputKey i "action" = Some [asString (index p "action")] ∧
          data !! inputKey i "dst_port"
            = Some [asString (index p "dst_port")] ∧
          (asString (index p "src_port") ≠ "" →
             data !! inputKey i "src_port"
               = Some [asString (index p "src_port")]) ∧
          (asString (index p "protocol") ≠ "" →
             data !! inputKey i "protocol"
               = Some [asString (index p "protocol")]) ∧
          (asString (index p "tcp_flags") ≠ "" →
             data !! inputKey i "tcp_flags"
               = Some [asString (index p "tcp_flags")]) ∧
          (ipVersion ≠ "ipv6" →
             data !! inputKey i "src_ip"
               = Some [asString (index p "src_ip")] ∧
             (asString (index p "dst_ip") ≠ "" →
                data !! inputKey i "dst_ip"
                  = Some [asString (index p "dst_ip")]))) ∧
       (∀ i f, (length (declaredBlocks d) ≤ i)%nat →
          data !! inputKey i f = None)).
Proof.
  assert (∀ d', rd_Get d' "rule" = rd_Get d "rule" →
     Input (Rules (declaredFirewall d')) = Input (Rules (declaredFirewall d)) ∧
     ∀ i f, setFirewallData (declaredFirewall d') !! inputKey i f
            = setFirewallData (declaredFirewall d) !! inputKey i f) as Hrules.
  { intros d' Hrule.
    assert (Input (Rules (declaredFirewall d'))
            = Input (Rules (declaredFirewall d))) as Heq.
    { unfold declaredFirewall, declaredRules. simpl. by rewrite Hrule. }
    split; [done|]. intros i f. by rewrite !setFirewallData_input, Heq. }
  destruct m as [c|].
  2:{ split; [reflexivity|]. split; [reflexivity|].
      split; [intros c [=]|]. split; [reflexivity|].
      split; [exact Hrules|intros c [=]]. }
  unfold calls, outcome.
  rewrite resourceFirewallUpdate_run, resourceFirewallCreate_run.
  split; [|split; [|split; [|split; [|split]]]]; [| | | |exact Hrules|].
  - by destruct (setFirewall R c _ w) as [[err|] w'].
  - by destruct (setFirewall R c _ w) as [[err|] w'].
  - intros c' [= <-] Hreq. rewrite setFirewall_run, Hreq. done.
  - intros st. rewrite resourceFirewallUpdate_run.
    change (declaredFirewall (withState st d)) with (declaredFirewall d).
    by destruct (setFirewall R c _ w) as [[err|] w'].
  - intros c' [= <-] Hreq.
    exists (firewallRequest c (declaredFirewall d)),
      (setFirewallData (declaredFirewall d)).
    rewrite setFirewall_run.
    change (IP (declaredFirewall d)) with (attrString (rd_Get d "server_ip")).
    rewrite Hreq.
    split; [done|]. split; [done|]. split; [done|]. split; [done|]. split.
    + intros i p Hp.
      set (ipVersion := match index p "ip_version" with
                        | VString v => if decide (v ≠ "") then v else "ipv4"
                        | _ => "ipv4"
                        end).
      pose proof (declaredRules_lookup d i p Hp) as Hrule.
      rewrite createRuleStep_rule in Hrule. cbn [head] in Hrule.
      rewrite !setFirewallData_input, Hrule. cbn [mbind option_bind].
      unfold emitted, effectiveIPVersion. cbn [IPVersion Name Action DstPort
        SrcPort Protocol TCPFlags SrcIP DstIP].
      fold ipVersion.
      assert (ipVersion ≠ "") as Hne.
      { subst ipVersion. destruct (index p "ip_version"); try done.
        by case_decide. }
      rewrite (decide_False (P := ipVersion = "")) by done.
      simpl. repeat split.
      * intros Hsrc. by rewrite decide_True.
      * intros Hproto. by rewrite decide_True.
      * intros Hflags. by rewrite decide_True.
      * by rewrite decide_True.
      * intros Hdst. by rewrite !decide_True.
    + intros i f Hle. rewrite setFirewallData_input.
      rewrite lookup_ge_None_2; [done|]. by rewrite declaredRules_length.
Qed.

Lemma C7_update_same_as_create_witness :
  calls (resourceFirewallUpdate remoteOk
           (firewallData false true [ipv6RuleBlock; bareRuleBlock])
           (MetaClient exampleClient)) []
  = [EvHttp (firewallRequest exampleClient
       (declaredFirewall
          (firewallData false true [ipv6RuleBlock; bareRuleBlock])))] ∧
  setFirewallData (declaredFirewall
      (firewallData true false [ipv6RuleBlock; bareRuleBlock]))
    !! inputKey 1 "name"
  = setFirewallData (declaredFirewall
      (firewallData false true [ipv6RuleBlock; bareRuleBlock]))
    !! inputKey 1 "name" ∧
  ∃ request data,
    calls (resourceFirewallUpdate remoteOk
             (firewallData false true [ipv6RuleBlock; bareRuleBlock])
             (MetaClient exampleClient)) [] = [EvHttp request] ∧
    req_form request = Some data ∧
    data !! inputKey 0 "name" = Some ["web6"] ∧
    data !! inputKey 1 "name" = Some ["drop"] ∧
    data !! inputKey 1 "action" = Some ["discard"] ∧
    data !! inputKey 2 "name" = None.
Proof.
  destruct (C7_update_same_as_create remoteOk
              (firewallData false true [ipv6RuleBlock; bareRuleBlock])
              (MetaClient exampleClient) [])
    as (_ & _ & Hcall & _ & Hflags & Hform).
  split; [|split].
  - apply (Hcall exampleClient); reflexivity.
  - apply (Hflags (firewallData true false [ipv6RuleBlock; bareRuleBlock])).
    reflexivity.
  - destruct (Hform exampleClient)
      as (request & data & Hcalls & _ & _ & Hdata & Hgroups & Hnone);
      [reflexivity | reflexivity |].
    exists request, data.
    split; [exact Hcalls|]. split; [exact Hdata|].
    destruct (Hgroups 0 ipv6RuleBlock) as (Hname0 & _); [reflexivity|].
    destruct (Hgroups 1 bareRuleBlock) as (Hname1 & _ & Haction1 & _);
      [reflexivity|].
    split; [exact Hname0|]. split; [exact Hname1|].
    split; [exact Haction1|].
    apply Hnone. vm_compute. lia.
Defined.

(** C9: delete issues no call (neither an apply nor a fetch), reports no
    diagnostic and leaves the resource data as they were. *)
Theorem C9_delete_no_remote_call (d : ResourceData) (m : Meta) (w : World) :
  resourceFirewallDelete d m w = (([], d), w) ∧
  calls (resourceFirewallDelete d m) w = w ∧
  diag.HasError (fst (outcome (resourceFirewallDelete d m) w)) = false.
Proof. by repeat split. Qed.

(** C10: create sets the identity to the bound server address exactly
    when [setFirewall] succeeds, and only after that call; when the call
    fails, create returns its error and the resource data, the identity
    included, are those it was given. *)
Theorem C10_identity_set_iff_applied (R : Remote) (d : ResourceData)
    (c : HetznerRobotClient) (w : World) :
  let serverIP := attrString (rd_Get d "server_ip") in
  let created := outcome (resourceFirewallCreate R d (MetaClient c)) w in
  calls (resourceFirewallCreate R d (MetaClient c)) w
    = calls (setFirewall R c (declaredFirewall d)) w ∧
  match outcome (setFirewall R c (declaredFirewall d)) w with
  | None =>
      snd created = rd_SetId serverIP d ∧ rd_Id (snd created) = serverIP ∧
      fst created = fst (declaredRules d)
  | Some err =>
      snd created = d ∧ rd_Id (snd created) = rd_Id d ∧
      fst created = diag.FromErr err
  end.
Proof.
  intros serverIP created. subst serverIP created.
  unfold calls, outcome. rewrite resourceFirewallCreate_run.
  by destruct (setFirewall R c _ w) as [[err|] w'].
Qed.

(** Both branches occur: the call succeeds on status 200 and fails on
    status 500. *)
Lemma resourceFirewallCreate_applied :
  outcome (resourceFirewallCreate remoteOk
             (firewallData true true [bareRuleBlock])
             (MetaClient exampleClient)) []
  = ([], rd_SetId "1.1.1.1" (firewallData true true [bareRuleBlock])).
Proof. vm_compute. reflexivity. Qed.

Lemma resourceFirewallCreate_refused :
  outcome (resourceFirewallCreate remoteHttp500
             (firewallData true true [bareRuleBlock])
             (MetaClient exampleClient)) []
  = (diag.FromErr
       "hetzner webservice response status 500: internal error",
     firewallData true true [bareRuleBlock]).
Proof. vm_compute. reflexivity. Qed.

(** ** The membership differencer *)

Lemma serverNumberSet_acc servers : ∀ (acc : gset Z) k,
  k ∈ foldl (λ (mb : gset Z) x,
           match x with
           | EOther _ => mb
           | EMap srv =>
               match asIntOk (index srv "server_number") with
               | Some serverNum => {[serverNum]} ∪ mb
               | None => mb
               end
           end) acc servers ↔ k ∈ acc ∨ k ∈ serverKeys servers.
Proof.
  unfold serverKeys.
  induction servers as [|x rest IH]; intros acc k; simpl.
  - rewrite elem_of_nil. tauto.
  - rewrite IH. destruct x as [srv|v]; simpl; [|tauto].
    destruct (asIntOk (index srv "server_number")) as [n|]; simpl; [|tauto].
    rewrite elem_of_union, elem_of_singleton, elem_of_cons. tauto.
Qed.

Lemma elem_of_serverNumberSet servers k :
  k ∈ serverNumberSet servers ↔ k ∈ serverKeys servers.
Proof.
  unfold serverNumberSet. rewrite serverNumberSet_acc.
  rewrite elem_of_empty. tauto.
Qed.

Lemma serversNotFound_acc (m : gset Z) servers :
  ∀ acc : list HetznerRobotVSwitchServer,
  foldl (λ (acc : list HetznerRobotVSwitchServer) x,
           match x with
           | EOther _ => acc
           | EMap srv =>
               match asIntOk (index srv "server_number") with
               | None => acc
               | Some srvNum =>
                   if decide (srvNum ∈ m) then acc
                   else acc ++ [serverOfNumber srvNum]
               end
           end) acc servers
  = acc ++ (serverOfNumber <$> filter (λ k, k ∉ m) (serverKeys servers)).
Proof.
  unfold serverKeys.
  induction servers as [|x rest IH]; intros acc; simpl.
  - by rewrite app_nil_r.
  - rewrite IH. destruct x as [srv|v]; simpl; [|done].
    destruct (asIntOk (index srv "server_number")) as [n|]; simpl; [|done].
    rewrite filter_cons. destruct (decide (n ∈ m)); simpl.
    + by rewrite decide_False by tauto.
    + rewrite decide_True by done. simpl. by rewrite <- app_assoc.
Qed.

Lemma serversNotFound_keys against servers :
  serversNotFound (serverNumberSet against) servers
  = serverOfNumber
      <$> filter (λ k, k ∉ serverKeys against) (serverKeys servers).
Proof.
  unfold serversNotFound. rewrite serversNotFound_acc. simpl. f_equal.
  apply list_filter_iff. intros k. by rewrite elem_of_serverNumberSet.
Qed.

Lemma serverKeys_member (l : list Z) : serverKeys (member <$> l) = l.
Proof.
  induction l as [|n l IH]; [done|].
  change (serverKeys (member <$> n :: l))
    with (n :: serverKeys (member <$> l)).
  by rewrite IH.
Qed.


Lemma filter_none (P : Z → Prop) `{∀ x, Decision (P x)} (l : list Z) :
  (∀ x, x ∈ l → ¬ P x) → filter P l = [].
Proof.
  induction l as [|x l IH]; intros Hl; [done|].
  rewrite filter_cons, decide_False.
  - apply IH. intros y Hy. apply Hl. by right.
  - apply Hl. by left.
Qed.

(** C2: [toAdd] is the subsequence of the new members whose key does not
    occur in the old sequence, [toRemove] the subsequence of the old
    members whose key does not occur in the new one, each as the member of
    that key; a key present in both occurs in neither output, and both are
    empty when the two sequences have the same keys. These are the lists
    the remove call and the add call of the update carry. *)
Theorem C2_membership_diff (old new : list elem) :
  let toAdd := serversNotFound (serverNumberSet old) new in
  let toRemove := serversNotFound (serverNumberSet new) old in
  toAdd = (serverOfNumber
             <$> filter (λ k, k ∉ serverKeys old) (serverKeys new)) ∧
  toRemove = (serverOfNumber
                <$> filter (λ k, k ∉ serverKeys new) (serverKeys old)) ∧
  (∀ k, k ∈ serverKeys old → k ∈ serverKeys new →
     (serverOfNumber k ∉ toAdd) ∧ (serverOfNumber k ∉ toRemove)) ∧
  ((∀ k, k ∈ serverKeys old ↔ k ∈ serverKeys new) →
     toAdd = [] ∧ toRemove = []) ∧
  (∀ d, rd_GetChange d "servers" = (AList old, AList new) →
     rd_HasChange d "servers" = true →
     membershipEvents d = [EvRemoveVSwitchServers (rd_Id d) toRemove;
                           EvAddVSwitchServers (rd_Id d) toAdd]).
Proof.
  intros toAdd toRemove. subst toAdd toRemove.
  rewrite !serversNotFound_keys.
  split; [done|]. split; [done|]. split; [|split].
  - intros k Hold Hnew. split.
    + intros (k' & [= <-] & Hin)%list_elem_of_fmap.
      apply list_elem_of_filter in Hin as [Hnot _]. by apply Hnot.
    + intros (k' & [= <-] & Hin)%list_elem_of_fmap.
      apply list_elem_of_filter in Hin as [Hnot _]. by apply Hnot.
  - intros Hsame. split.
    + replace (filter (λ k, k ∉ serverKeys old) (serverKeys new))
        with (@nil Z); [done|].
      symmetry. apply filter_none.
      intros k Hk Hnot. apply Hnot. by apply Hsame.
    + replace (filter (λ k, k ∉ serverKeys new) (serverKeys old))
        with (@nil Z); [done|].
      symmetry. apply filter_none.
      intros k Hk Hnot. apply Hnot. by apply Hsame.
  - intros d Hchange Hhas. unfold membershipEvents.
    rewrite Hhas, Hchange. simpl. by rewrite !serversNotFound_keys.
Qed.

Lemma C2_membership_diff_witness :
  serversNotFound (serverNumberSet (member <$> [1; 2]%Z)) (member <$> [2; 3]%Z)
    = [serverOfNumber 3] ∧
  serversNotFound (serverNumberSet (member <$> [2; 3]%Z)) (member <$> [1; 2]%Z)
    = [serverOfNumber 1] ∧
  serversNotFound (serverNumberSet (member <$> [1; 2]%Z)) (member <$> [2; 1]%Z)
    = [].
Proof.
  destruct (C2_membership_diff (member <$> [1; 2]%Z) (member <$> [2; 3]%Z))
    as (Hadd & Hremove & _).
  destruct (C2_membership_diff (member <$> [1; 2]%Z) (member <$> [2; 1]%Z))
    as (_ & _ & _ & Hsame & _).
  split; [exact Hadd|]. split; [exact Hremove|].
  apply Hsame. intros k. rewrite !serverKeys_member, !elem_of_cons. tauto.
Defined.

(** ** The vSwitch resource *)

(** The calls of an update, in the order they are issued: the update call;
    then, when it succeeded, the remove call and the add call if the server
    list changed (the add call whatever the remove call answered); then the
    fetch of the read. *)
Lemma resourceVSwitchUpdate_calls R c d w :
  calls (resourceVSwitchUpdate R d (MetaClient c)) w =
    w ++ EvUpdateVSwitch (rd_Id d) (attrString (rd_Get d "name"))
           (attrInt (rd_Get d "vlan"))
      :: match vs_update R w (rd_Id d) (attrString (rd_Get d "name"))
                 (attrInt (rd_Get d "vlan")) with
         | Some _ => []
         | None => membershipEvents d ++ [EvGetVSwitch (rd_Id d)]
         end.
Proof.
  unfold calls, resourceVSwitchUpdate, membershipEvents, bind, updateVSwitch,
    emit, ret. simpl.
  destruct (vs_update R w _ _ _); simpl; [done|].
  destruct (rd_HasChange d "servers"); simpl.
  - unfold resourceVSwitchRead, bind, getVSwitch, emit, ret,
      removeVSwitchServers, addVSwitchServers; simpl.
    match goal with
    | |- context [vs_get ?a ?b ?c] => destruct (vs_get a b c)
    end; simpl; by rewrite <- !app_assoc.
  - unfold resourceVSwitchRead, bind, getVSwitch, emit, ret; simpl.
    match goal with
    | |- context [vs_get ?a ?b ?c] => destruct (vs_get a b c)
    end; simpl; by rewrite <- !app_assoc.
Qed.

(** The diagnostics of an update are those of a failed update call or
    those of the read; what the remove call and the add call answered does
    not enter them. *)
Lemma resourceVSwitchUpdate_diags R c d w :
  fst (outcome (resourceVSwitchUpdate R d (MetaClient c)) w) =
    match vs_update R w (rd_Id d) (attrString (rd_Get d "name"))
            (attrInt (rd_Get d "vlan")) with
    | Some err =>
        diag.Errorf ("Unable to update VSwitch:" +:+ nl_tab +:+ " "
                     +:+ fmt_q R err)
    | None =>
        match vs_get R
                (w ++ EvUpdateVSwitch (rd_Id d) (attrString (rd_Get d "name"))
                        (attrInt (rd_Get d "vlan")) :: membershipEvents d)
                (rd_Id d) with
        | Err err =>
            diag.FromErr ("unable to find VSwitch with ID " +:+ rd_Id d
                          +:+ ": " +:+ err)
        | Ok _ => []
        end
    end.
Proof.
  unfold outcome, resourceVSwitchUpdate, membershipEvents, bind, updateVSwitch,
    emit, ret. simpl.
  destruct (vs_update R w _ _ _); simpl; [done|].
  destruct (rd_HasChange d "servers"); simpl.
  - unfold resourceVSwitchRead, bind, getVSwitch, emit, ret,
      removeVSwitchServers, addVSwitchServers; simpl.
    rewrite <- !app_assoc. simpl.
    match goal with
    | |- context [vs_get ?a ?b ?c] => destruct (vs_get a b c)
    end; done.
  - unfold resourceVSwitchRead, bind, getVSwitch, emit, ret; simpl.
    match goal with
    | |- context [vs_get ?a ?b ?c] => destruct (vs_get a b c)
    end; done.
Qed.

(** C3, at the failing input: the servers go from 1, 2, 3 to 2, 3, 4 and
    the remove call fails. The remove call is issued before the add call
    and the add call is still issued, but the update returns no diagnostic
    at all: the failure of the remove call is lost. *)
Theorem C3_remove_failure_not_reported :
  vs_remove remoteRemoveFails [EvUpdateVSwitch "4321" "lan" 4000] "4321"
    [serverOfNumber 1] = Some "server is locked" ∧
  calls (resourceVSwitchUpdate remoteRemoveFails
           (switchData [1; 2; 3]%Z [2; 3; 4]%Z) (MetaClient exampleClient)) []
  = [EvUpdateVSwitch "4321" "lan" 4000;
     EvRemoveVSwitchServers "4321" [serverOfNumber 1];
     EvAddVSwitchServers "4321" [serverOfNumber 4];
     EvGetVSwitch "4321"] ∧
  fst (outcome (resourceVSwitchUpdate remoteRemoveFails
                  (switchData [1; 2; 3]%Z [2; 3; 4]%Z)
                  (MetaClient exampleClient)) []) = [].
Proof. repeat split; vm_compute; reflexivity. Qed.




(** * Further properties *)

(** What a call of [makeAPICall] does, case by case. *)
Lemma makeAPICall_run R c method uri data expected w :
  makeAPICall R c method uri data expected w =
    match http_NewRequest R method uri with
    | Some err => (Err err, w)
    | None =>
        (match http_Do R w (apiRequest c method uri data) with
         | DoError err => Err ("error sending request: " +:+ err)
         | ReadError err => Err err
         | Response StatusCode body =>
             if codeIsInExpected StatusCode expected then Ok body
             else Err ("hetzner webservice response status "
                       +:+ pretty StatusCode +:+ ": " +:+ body)
         end,
         w ++ [EvHttp (apiRequest c method uri data)])
    end.
Proof.
  unfold makeAPICall, bind, emit, ret, apiRequest.
  destruct (http_NewRequest R _ _); [done|].
  destruct (http_Do R w _) as [err|err|code body]; try done.
  by destruct (codeIsInExpected code _).
Qed.

(** X1: [makeAPICall] returns a body exactly when the request could be
    built, was answered, and the status of the answer is one of the
    expected codes; the body is the one of the answer. With no expected
    code it never succeeds. *)
Theorem makeAPICall_succeeds_iff R c method uri data expected w body :
  (outcome (makeAPICall R c method uri data expected) w = Ok body ↔
     http_NewRequest R method uri = None ∧
     ∃ code, http_Do R w (apiRequest c method uri data) = Response code body
             ∧ code ∈ expected) ∧
  outcome (makeAPICall R c method uri data []) w ≠ Ok body.
Proof.
  assert (∀ codes,
    outcome (makeAPICall R c method uri data codes) w = Ok body ↔
      http_NewRequest R method uri = None ∧
      ∃ code, http_Do R w (apiRequest c method uri data) = Response code body
              ∧ code ∈ codes) as Hiff.
  { intros codes. unfold outcome. rewrite makeAPICall_run.
    destruct (http_NewRequest R method uri) as [err|]; simpl.
    { split; [done|]. by intros [? _]. }
    destruct (http_Do R w _) as [err|err|code body']; simpl.
    - split; [done|]. by intros (_ & code & ? & _).
    - split; [done|]. by intros (_ & code & ? & _).
    - unfold codeIsInExpected. case_bool_decide as Hin.
      + split.
        * intros [= ->]. eauto.
        * by intros (_ & code' & [= <- <-] & _).
      + split; [done|]. intros (_ & code' & [= <- <-] & Hin'). done. }
  split; [apply Hiff|].
  intros Hok. apply Hiff in Hok as (_ & code & _ & Hin).
  by apply elem_of_nil in Hin.
Qed.

(** X2: [makeAPICall] sends one request at most and never retries: none
    when the request cannot be built, one otherwise, whatever the answer.
    The request carries the credentials of the client, and a form content
    type exactly when form data are given. *)
Theorem makeAPICall_one_request R c method uri data expected w :
  calls (makeAPICall R c method uri data expected) w =
    match http_NewRequest R method uri with
    | Some _ => w
    | None => w ++ [EvHttp (apiRequest c method uri data)]
    end ∧
  (length (calls (makeAPICall R c method uri data expected) w)
     ≤ S (length w))%nat ∧
  req_basic_auth (apiRequest c method uri data) = (username c, password c) ∧
  (is_Some (req_content_type (apiRequest c method uri data))
     ↔ is_Some data).
Proof.
  unfold calls. rewrite makeAPICall_run.
  destruct (http_NewRequest R method uri); simpl.
  - repeat split; try done; try lia.
    + destruct data; simpl; [eauto|by intros [??]].
    + destruct data; simpl; [eauto|by intros [??]].
  - rewrite length_app. simpl. repeat split; try done; try lia.
    + destruct data; simpl; [eauto|by intros [??]].
    + destruct data; simpl; [eauto|by intros [??]].
Qed.

(** X3: [setFirewall] succeeds exactly when its request could be built and
    was answered with status 200 or 202; any other status is an error. *)
Theorem setFirewall_succeeds_iff R c firewall w :
  outcome (setFirewall R c firewall) w = None ↔
    http_NewRequest R "POST" (url c +:+ "/firewall/" +:+ IP firewall) = None ∧
    ∃ code body,
      http_Do R w (firewallRequest c firewall) = Response code body ∧
      (code = 200 ∨ code = 202)%Z.
Proof.
  unfold outcome. rewrite setFirewall_run.
  destruct (http_NewRequest R _ _) as [err|]; simpl.
  { split; [done|]. by intros [? _]. }
  destruct (http_Do R w _) as [err|err|code body]; simpl.
  - split; [done|]. by intros (_ & ? & ? & ? & _).
  - split; [done|]. by intros (_ & ? & ? & ? & _).
  - unfold codeIsInExpected. case_bool_decide as Hin.
    + split; [|done]. intros _. split; [done|]. exists code, body.
      split; [done|]. rewrite !elem_of_cons, elem_of_nil in Hin. tauto.
    + split; [done|]. intros (_ & code' & body' & [= <- <-] & Hcode).
      destruct Hin. rewrite !elem_of_cons. tauto.
Qed.

Section GetFirewall.
Variable R : Remote.
Variable json : string → result HetznerRobotFirewallResponse.

Lemma getFirewall_run c ip w :
  getFirewall R json c ip w =
    match http_NewRequest R "GET" (url c +:+ "/firewall/" +:+ ip) with
    | Some err => (Err err, w)
    | None =>
        (match http_Do R w (firewallFetch c ip) with
         | DoError err => Err ("error sending request: " +:+ err)
         | ReadError err => Err err
         | Response StatusCode body =>
             if codeIsInExpected StatusCode [200%Z; 202%Z] then
               match json body with
               | Err err => Err err
               | Ok firewall => Ok (Firewall firewall)
               end
             else Err ("hetzner webservice response status "
                       +:+ pretty StatusCode +:+ ": " +:+ body)
         end,
         w ++ [EvHttp (firewallFetch c ip)])
    end.
Proof.
  unfold getFirewall, bind, ret. rewrite makeAPICall_run.
  change (apiRequest c "GET" (url c +:+ "/firewall/" +:+ ip) None)
    with (firewallFetch c ip).
  destruct (http_NewRequest R _ _); [done|].
  destruct (http_Do R w _) as [err|err|code body]; try done.
  destruct (codeIsInExpected code _); [|done].
  by destruct (json body).
Qed.

(** X4: [getFirewall] returns a firewall exactly when its request could
    be built, was answered with status 200 or 202 and the body decodes;
    the firewall is the decoded one. It sends at most one GET request,
    without form data. *)
Theorem getFirewall_succeeds_iff c ip w firewall :
  (outcome (getFirewall R json c ip) w = Ok firewall ↔
     http_NewRequest R "GET" (url c +:+ "/firewall/" +:+ ip) = None ∧
     ∃ code body response,
       http_Do R w (firewallFetch c ip) = Response code body ∧
       (code = 200 ∨ code = 202)%Z ∧
       json body = Ok response ∧ Firewall response = firewall) ∧
  calls (getFirewall R json c ip) w =
    match http_NewRequest R "GET" (url c +:+ "/firewall/" +:+ ip) with
    | Some _ => w
    | None => w ++ [EvHttp (firewallFetch c ip)]
    end.
Proof.
  unfold outcome, calls. rewrite getFirewall_run.
  destruct (http_NewRequest R _ _) as [err|]; simpl.
  { split; [|done]. split; [done|]. by intros [? _]. }
  split; [|done].
  destruct (http_Do R w _) as [err|err|code body]; simpl.
  - split; [done|]. by intros (_ & ? & ? & ? & ? & _).
  - split; [done|]. by intros (_ & ? & ? & ? & ? & _).
  - unfold codeIsInExpected. case_bool_decide as Hin.
    + destruct (json body) as [response|err] eqn:Hjson.
      * split.
        -- intros [= <-]. split; [done|]. exists code, body, response.
           rewrite !elem_of_cons, elem_of_nil in Hin. tauto.
        -- intros (_ & code' & body' & response' & [= <- <-] & _ & Hj & <-).
           rewrite Hjson in Hj. by injection Hj as ->.
      * split; [done|].
        intros (_ & code' & body' & response' & [= <- <-] & _ & Hj & _).
        rewrite Hjson in Hj. done.
    + split; [done|].
      intros (_ & code' & body' & response' & [= <- <-] & Hcode & _).
      destruct Hin. rewrite !elem_of_cons. tauto.
Qed.
End GetFirewall.

(** What one block contributes. *)
Lemma createRuleStep_block (p : gmap string value) :
  ∃ rule,
    snd (createRuleStep ([], []) (EMap p)) = [rule] ∧
    IPVersion rule ≠ "" ∧
    Forall (λ x, diag.Sev x = diag.Warning)
      (fst (createRuleStep ([], []) (EMap p))).
Proof.
  unfold createRuleStep.
  eexists. split; [reflexivity|]. simpl. split.
  - destruct (index p "ip_version") as [|v| |]; try done.
    by case_decide.
  - repeat case_decide; repeat constructor.
Qed.

Lemma createRuleStep_Forall (l : list elem) :
  Forall (λ x, diag.Sev x = diag.Warning)
    (l ≫= λ x, fst (createRuleStep ([], []) x)) ∧
  Forall (λ rule, IPVersion rule ≠ "")
    (l ≫= λ x, snd (createRuleStep ([], []) x)).
Proof.
  induction l as [|x rest [IH1 IH2]].
  - split; constructor.
  - rewrite !bind_cons. split; apply Forall_app; split; try done.
    + destruct x as [p|v]; [|constructor].
      by destruct (createRuleStep_block p) as (rule & _ & _ & Hw).
    + destruct x as [p|v]; [|constructor].
      destruct (createRuleStep_block p) as (rule & Hr & Hv & _).
      rewrite Hr. by constructor.
Qed.

Lemma declaredRules_Forall (d : ResourceData) :
  Forall (λ x, diag.Sev x = diag.Warning) (fst (declaredRules d)) ∧
  Forall (λ rule, IPVersion rule ≠ "") (snd (declaredRules d)).
Proof.
  unfold declaredRules. rewrite foldl_createRuleStep.
  cbn [fst snd]. rewrite !app_nil_l. apply createRuleStep_Forall.
Qed.

Lemma HasError_warnings ds :
  Forall (λ x, diag.Sev x = diag.Warning) ds → diag.HasError ds = false.
Proof.
  induction 1 as [|x ds Hx _ IH]; [done|].
  unfold diag.HasError in *. simpl. by rewrite Hx.
Qed.

(** X5: the diagnostics collected from the rule blocks are warnings only,
    so create and update report an error exactly when [setFirewall]
    failed. *)
Theorem create_error_iff_apply_fails R d c w :
  diag.HasError (fst (declaredRules d)) = false ∧
  (diag.HasError (fst (outcome (resourceFirewallCreate R d (MetaClient c)) w))
     = true
   ↔ is_Some (outcome (setFirewall R c (declaredFirewall d)) w)) ∧
  (diag.HasError (fst (outcome (resourceFirewallUpdate R d (MetaClient c)) w))
     = true
   ↔ is_Some (outcome (setFirewall R c (declaredFirewall d)) w)).
Proof.
  assert (diag.HasError (fst (declaredRules d)) = false) as Hw.
  { apply HasError_warnings, declaredRules_Forall. }
  split; [done|]. unfold outcome.
  rewrite resourceFirewallCreate_run, resourceFirewallUpdate_run.
  destruct (setFirewall R c _ w) as [[err|] w']; simpl.
  - split; (split; [eauto|done]).
  - rewrite Hw. split; (split; [done|by intros [??]]).
Qed.

(** X6: every rule that create or update hands to the encoder has a
    non-empty address family (a missing or empty one became ipv4), so the
    encoder's own default never fires for it. *)
Theorem declared_versions_never_empty (d : ResourceData) rule :
  rule ∈ Input (Rules (declaredFirewall d)) →
  IPVersion rule ≠ "" ∧ effectiveIPVersion rule = IPVersion rule.
Proof.
  intros Hin. destruct (declaredRules_Forall d) as [_ Hv].
  rewrite Forall_forall in Hv. specialize (Hv rule Hin).
  split; [done|]. unfold effectiveIPVersion. by rewrite decide_False.
Qed.

(** ** The encoder up to what it drops *)

Lemma effectiveIPVersion_nonempty rule : effectiveIPVersion rule ≠ "".
Proof. unfold effectiveIPVersion. by case_decide. Qed.

Lemma effectiveIPVersion_normalizeRule rule :
  effectiveIPVersion (normalizeRule rule) = effectiveIPVersion rule.
Proof.
  unfold effectiveIPVersion at 1. simpl.
  by rewrite decide_False by apply effectiveIPVersion_nonempty.
Qed.

Lemma emitted_normalizeRule rule f :
  emitted (normalizeRule rule) f = emitted rule f.
Proof.
  unfold emitted. rewrite effectiveIPVersion_normalizeRule.
  simpl. repeat case_decide; try done; congruence.
Qed.

Lemma emitted_determines r1 r2 :
  (∀ f, emitted r1 f = emitted r2 f) → normalizeRule r1 = normalizeRule r2.
Proof.
  intros H.
  pose proof (H "name") as Hname. pose proof (H "ip_version") as Hver.
  pose proof (H "action") as Haction. pose proof (H "src_ip") as Hsrc.
  pose proof (H "dst_ip") as Hdst. pose proof (H "dst_port") as Hdport.
  pose proof (H "src_port") as Hsport. pose proof (H "protocol") as Hproto.
  pose proof (H "tcp_flags") as Hflags. clear H.
  unfold emitted in *. simpl in *.
  injection Hname as Hname. injection Hver as Hver.
  injection Haction as Haction. injection Hdport as Hdport.
  unfold normalizeRule. rewrite <- Hver in *.
  destruct r1, r2; simpl in *. subst.
  f_equal; repeat case_decide; simplify_eq; try done; congruence.
Qed.

Lemma setFirewallData_sub fw1 fw2 k x :
  WhitelistHetznerServices fw1 = WhitelistHetznerServices fw2 →
  Status fw1 = Status fw2 →
  normalizeRule <$> Input (Rules fw1) = normalizeRule <$> Input (Rules fw2) →
  setFirewallData fw1 !! k = Some x → setFirewallData fw2 !! k = Some x.
Proof.
  intros Hw Hs Hr Hk.
  destruct (setFirewallData_dom fw1 k) as [Hfix|(i & f & rule & v & -> & Hi & Hv)];
    [by eexists|..].
  - destruct (setFirewallData_fixed fw1) as (H1 & H2 & H3 & H4).
    destruct (setFirewallData_fixed fw2) as (G1 & G2 & G3 & G4).
    rewrite Hw in H1. rewrite Hs in H2.
    unfold fixedKeys in Hfix. rewrite !elem_of_cons, elem_of_nil in Hfix.
    destruct Hfix as [->|[->|[->|[->|[]]]]]; congruence.
  - rewrite setFirewallData_input in Hk |- *.
    assert ((normalizeRule <$> Input (Rules fw2)) !! i
            = Some (normalizeRule rule)) as Hi2.
    { by rewrite <- Hr, list_lookup_fmap, Hi. }
    rewrite list_lookup_fmap in Hi2.
    destruct (Input (Rules fw2) !! i) as [rule2|]; [|done].
    apply (inj Some) in Hi2. rewrite Hi in Hk. simpl in *.
    by rewrite <- (emitted_normalizeRule rule2), Hi2, emitted_normalizeRule.
Qed.

Lemma setFirewallData_normalized fw1 fw2 :
  WhitelistHetznerServices fw1 = WhitelistHetznerServices fw2 →
  Status fw1 = Status fw2 →
  normalizeRule <$> Input (Rules fw1) = normalizeRule <$> Input (Rules fw2) →
  setFirewallData fw1 = setFirewallData fw2.
Proof.
  intros Hw Hs Hr. apply map_eq. intros k.
  apply option_eq. intros x. split; apply setFirewallData_sub; done.
Qed.

(** X7: two firewalls are encoded to the same payload exactly when they
    agree on the whitelist flag, on the status and, rule by rule, on what
    the encoder reads: every field, with an empty address family read as
    ipv4 and the addresses of ipv6 rules left out. *)
Theorem payload_equal_iff fw1 fw2 :
  setFirewallData fw1 = setFirewallData fw2 ↔
    WhitelistHetznerServices fw1 = WhitelistHetznerServices fw2 ∧
    Status fw1 = Status fw2 ∧
    normalizeRule <$> Input (Rules fw1) = normalizeRule <$> Input (Rules fw2).
Proof.
  split.
  - intros Heq.
    destruct (setFirewallData_fixed fw1) as (H1 & H2 & _).
    destruct (setFirewallData_fixed fw2) as (G1 & G2 & _).
    rewrite Heq in H1, H2.
    split; [|split].
    + rewrite H1 in G1.
      destruct (WhitelistHetznerServices fw1),
        (WhitelistHetznerServices fw2); done.
    + rewrite H2 in G2. by injection G2.
    + apply list_eq. intros i. rewrite !list_lookup_fmap.
      assert (∀ f, (rule ← Input (Rules fw1) !! i;
                    (λ v, [v]) <$> emitted rule f)
                 = (rule ← Input (Rules fw2) !! i;
                    (λ v, [v]) <$> emitted rule f)) as Hi.
      { intros f. by rewrite <- !setFirewallData_input, Heq. }
      destruct (Input (Rules fw1) !! i) as [r1|],
        (Input (Rules fw2) !! i) as [r2|]; simpl in *.
      * f_equal. apply emitted_determines. intros f. specialize (Hi f).
        destruct (emitted r1 f), (emitted r2 f); simpl in Hi; congruence.
      * specialize (Hi "name"). done.
      * specialize (Hi "name"). done.
      * done.
  - intros (Hw & Hs & Hr). by apply setFirewallData_normalized.
Qed.

(** X8: the groups of a rule list followed by another are the groups of
    the first list, then those of the second shifted by the length of the
    first: appending rules never changes the groups before them. *)
Theorem payload_groups_of_app fw fw1 fw2 :
  Input (Rules fw) = Input (Rules fw1) ++ Input (Rules fw2) →
  (∀ i f, i < length (Input (Rules fw1)) →
     setFirewallData fw !! inputKey i f = setFirewallData fw1 !! inputKey i f) ∧
  (∀ j f, setFirewallData fw !! inputKey (length (Input (Rules fw1)) + j) f
          = setFirewallData fw2 !! inputKey j f).
Proof.
  intros Happ. split.
  - intros i f Hlt. rewrite !setFirewallData_input, Happ.
    by rewrite lookup_app_l.
  - intros j f. rewrite !setFirewallData_input, Happ.
    rewrite lookup_app_r by lia. by replace (_ + j - _) with j by lia.
Qed.

(** ** Resource data *)

Lemma rd_Get_Set keys key v d key' :
  key ∈ keys →
  rd_Get (rd_Set keys key v d) key'
  = if decide (key = key') then v else rd_Get d key'.
Proof.
  intros Hin. unfold rd_Set, rd_Get. rewrite bool_decide_eq_true_2 by done.
  simpl. rewrite lookup_insert. by case_decide.
Qed.

Lemma rd_Set_unknown keys key v d : key ∉ keys → rd_Set keys key v d = d.
Proof. intros Hin. unfold rd_Set. by rewrite bool_decide_eq_false_2. Qed.

Lemma rd_Set_frame keys key v d :
  rd_id (rd_Set keys key v d) = rd_id d ∧
  rd_state (rd_Set keys key v d) = rd_state d.
Proof. unfold rd_Set. by case_bool_decide. Qed.

Lemma rd_Set_Id keys key v d : rd_Id (rd_Set keys key v d) = rd_Id d.
Proof. unfold rd_Id. apply rd_Set_frame. Qed.

Lemma firewallSchemaKeys_elem key :
  key ∈ firewallSchemaKeys ↔
    key = "server_ip" ∨ key = "active" ∨ key = "whitelist_hos" ∨ key = "rule".
Proof.
  unfold firewallSchemaKeys. rewrite !elem_of_cons, elem_of_nil. tauto.
Qed.

Lemma createRuleStep_ruleToElem diags rules rule :
  createRuleStep (diags, rules) (ruleToElem rule)
  = (diags ++ ruleWarnings rule, rules ++ [defaultVersion rule]).
Proof.
  unfold createRuleStep, ruleToElem, ruleWarnings, defaultVersion,
    effectiveIPVersion, index.
  simplify_map_eq. simpl.
  destruct (decide (IPVersion rule = "")) as [He|He];
    destruct (decide (IPVersion rule ≠ "")) as [Hn|Hn];
    try (by destruct Hn); try (by destruct He);
    repeat case_decide; simpl; try done;
    by rewrite ?app_nil_r, <- ?app_assoc.
Qed.

Lemma foldl_createRuleStep_ruleToElem (remote : list HetznerRobotFirewallRule) :
  foldl createRuleStep ([], []) (ruleToElem <$> remote)
  = (remote ≫= ruleWarnings, defaultVersion <$> remote).
Proof.
  rewrite foldl_createRuleStep, !app_nil_l. f_equal.
  - induction remote as [|rule rest IH]; [done|].
    by rewrite fmap_cons, !bind_cons, IH, createRuleStep_ruleToElem.
  - induction remote as [|rule rest IH]; [done|].
    by rewrite fmap_cons, !bind_cons, IH, createRuleStep_ruleToElem.
Qed.

Lemma normalizeRule_defaultVersion rule :
  normalizeRule (defaultVersion rule) = normalizeRule rule.
Proof.
  assert (effectiveIPVersion (defaultVersion rule) = effectiveIPVersion rule)
    as He.
  { unfold effectiveIPVersion at 1. simpl.
    by rewrite decide_False by apply effectiveIPVersion_nonempty. }
  unfold normalizeRule. rewrite He. done.
Qed.

Section ReadFirewall.
Variable R : Remote.
Variable json : string → result HetznerRobotFirewallResponse.

Lemma resourceFirewallRead_run d c w :
  resourceFirewallRead R json d (MetaClient c) w =
    let '(r, w') := getFirewall R json c (rd_Id d) w in
    (match r with
     | Err err => (diag.FromErr err, d)
     | Ok firewall =>
         ([],
          rd_Set firewallSchemaKeys "whitelist_hos"
            (APrim (VBool (WhitelistHetznerServices firewall)))
            (rd_Set firewallSchemaKeys "server_ip"
               (APrim (VString (IP firewall)))
               (rd_Set firewallSchemaKeys "rule"
                  (AList (ruleToElem <$> Input (Rules firewall)))
                  (rd_Set firewallSchemaKeys "active"
                     (APrim (VBool (bool_decide (Status firewall = "active"))))
                     d))))
     end, w').
Proof.
  unfold resourceFirewallRead, bind, ret.
  by destruct (getFirewall R json c (rd_Id d) w) as [[firewall|err] w'].
Qed.

Lemma resourceFirewallImportState_run d c w :
  resourceFirewallImportState R json d (MetaClient c) w =
    let '(r, w') := getFirewall R json c (rd_Id d) w in
    (match r with
     | Err err =>
         Err ("could not find firewall with ID " +:+ rd_Id d +:+ ": " +:+ err)
     | Ok firewall =>
         Ok [rd_SetId (IP firewall)
          (rd_Set firewallSchemaKeys "whitelist_hos"
            (APrim (VBool (WhitelistHetznerServices firewall)))
            (rd_Set firewallSchemaKeys "server_ip"
               (APrim (VString (IP firewall)))
               (rd_Set firewallSchemaKeys "rule"
                  (AList (ruleToElem <$> Input (Rules firewall)))
                  (rd_Set firewallSchemaKeys "active"
                     (APrim (VBool (bool_decide (Status firewall = "active"))))
                     d))))]
     end, w').
Proof.
  unfold resourceFirewallImportState, bind, ret.
  by destruct (getFirewall R json c (rd_Id d) w) as [[firewall|err] w'].
Qed.

(** X9: after a successful read the resource data declare the firewall
    that was fetched: same address, same whitelist flag, the rules in the
    same order with their address family defaulted. Applying these data
    posts the payload of the fetched firewall when its status is active or
    disabled, and raises the ipv6 warnings of the fetched rules. *)
Theorem firewall_read_round_trip d c w firewall :
  outcome (getFirewall R json c (rd_Id d)) w = Ok firewall →
  let d' := snd (outcome (resourceFirewallRead R json d (MetaClient c)) w) in
  fst (outcome (resourceFirewallRead R json d (MetaClient c)) w) = [] ∧
  rd_Id d' = rd_Id d ∧
  declaredFirewall d'
  = {| IP := IP firewall;
       WhitelistHetznerServices := WhitelistHetznerServices firewall;
       Status := if bool_decide (Status firewall = "active") then "active"
                 else "disabled";
       Rules := {| Input := defaultVersion <$> Input (Rules firewall) |} |} ∧
  fst (declaredRules d') = Input (Rules firewall) ≫= ruleWarnings ∧
  (Status firewall = "active" ∨ Status firewall = "disabled" →
   setFirewallData (declaredFirewall d') = setFirewallData firewall).
Proof.
  unfold outcome. rewrite resourceFirewallRead_run.
  destruct (getFirewall R json c (rd_Id d) w) as [r w'] eqn:Hget.
  cbn [fst snd]. intros ->. cbn [fst snd].
  set (d' := rd_Set _ "whitelist_hos" _ _).
  assert (rd_Get d' "rule" = AList (ruleToElem <$> Input (Rules firewall)) ∧
          rd_Get d' "server_ip" = APrim (VString (IP firewall)) ∧
          rd_Get d' "whitelist_hos"
            = APrim (VBool (WhitelistHetznerServices firewall)) ∧
          rd_Get d' "active"
            = APrim (VBool (bool_decide (Status firewall = "active"))))
    as (Hrule & Hip & Hwl & Hact).
  { subst d'. rewrite !rd_Get_Set by (apply firewallSchemaKeys_elem; tauto).
    repeat split; repeat case_decide; done. }
  assert (declaredRules d'
          = (Input (Rules firewall) ≫= ruleWarnings,
             defaultVersion <$> Input (Rules firewall))) as Hdecl.
  { unfold declaredRules. rewrite Hrule. simpl.
    apply foldl_createRuleStep_ruleToElem. }
  assert (declaredFirewall d'
  = {| IP := IP firewall;
       WhitelistHetznerServices := WhitelistHetznerServices firewall;
       Status := if bool_decide (Status firewall = "active") then "active"
                 else "disabled";
       Rules := {| Input := defaultVersion <$> Input (Rules firewall) |} |})
    as Hfw.
  { unfold declaredFirewall. rewrite Hdecl, Hip, Hwl, Hact. done. }
  split; [done|]. split.
  { subst d'. by rewrite !rd_Set_Id. }
  split; [done|]. split; [by rewrite Hdecl|].
  intros Hstatus. rewrite Hfw. apply setFirewallData_normalized; simpl.
  - done.
  - case_bool_decide as Ha; [done|]. by destruct Hstatus.
  - rewrite <- list_fmap_compose. apply list_fmap_ext.
    intros i rule _. apply normalizeRule_defaultVersion.
Qed.

(** X10: import issues the calls of read and sets the attributes read
    sets; in addition it sets the identity to the address the remote
    reports. On failure read returns the error as it is and import wraps
    it; both leave the data as they were. *)
Theorem firewall_import_is_read d c w :
  calls (resourceFirewallImportState R json d (MetaClient c)) w
    = calls (resourceFirewallRead R json d (MetaClient c)) w ∧
  match outcome (getFirewall R json c (rd_Id d)) w with
  | Ok firewall =>
      outcome (resourceFirewallImportState R json d (MetaClient c)) w
      = Ok [rd_SetId (IP firewall)
              (snd (outcome (resourceFirewallRead R json d (MetaClient c)) w))]
  | Err err =>
      outcome (resourceFirewallImportState R json d (MetaClient c)) w
      = Err ("could not find firewall with ID " +:+ rd_Id d +:+ ": " +:+ err)
      ∧ outcome (resourceFirewallRead R json d (MetaClient c)) w
        = (diag.FromErr err, d)
  end.
Proof.
  unfold calls, outcome.
  rewrite resourceFirewallRead_run, resourceFirewallImportState_run.
  by destruct (getFirewall R json c (rd_Id d) w) as [[firewall|err] w'].
Qed.

End ReadFirewall.

Lemma vSwitchSchemaKeys_elem key :
  key ∈ vSwitchSchemaKeys ↔
    key = "name" ∨ key = "vlan" ∨ key = "is_canceled" ∨ key = "servers"
    ∨ key = "subnets" ∨ key = "cloud_networks".
Proof.
  unfold vSwitchSchemaKeys. rewrite !elem_of_cons, elem_of_nil. tauto.
Qed.

Lemma canceled_not_in_schema : "canceled" ∉ vSwitchSchemaKeys.
Proof. rewrite vSwitchSchemaKeys_elem. intros [H|[H|[H|[H|[H|H]]]]]; done. Qed.

Lemma resourceVSwitchRead_run R d c w :
  resourceVSwitchRead R d (MetaClient c) w =
    (match vs_get R w (rd_Id d) with
     | Err err =>
         (diag.FromErr ("unable to find VSwitch with ID " +:+ rd_Id d
                        +:+ ": " +:+ err), d)
     | Ok vSwitch =>
         ([],
          rd_Set vSwitchSchemaKeys "cloud_networks"
            (AList (cloudNetworkToElem <$> vsCloudNetwork vSwitch))
            (rd_Set vSwitchSchemaKeys "subnets"
               (AList (subnetToElem <$> vsSubnet vSwitch))
               (rd_Set vSwitchSchemaKeys "servers"
                  (AList (serverToElem <$> vsServer vSwitch))
                  (rd_Set vSwitchSchemaKeys "vlan"
                     (APrim (VInt (vsVlan vSwitch)))
                     (rd_Set vSwitchSchemaKeys "name"
                        (APrim (VString (vsName vSwitch))) d)))))
     end, w ++ [EvGetVSwitch (rd_Id d)]).
Proof.
  unfold resourceVSwitchRead, bind, ret, getVSwitch, emit.
  destruct (vs_get R w (rd_Id d)) as [vSwitch|err]; [|done].
  by rewrite (rd_Set_unknown _ "canceled") by apply canceled_not_in_schema.
Qed.

(** X11: the read of a vSwitch writes the cancellation flag under the key
    [canceled], which the schema does not declare, so [is_canceled] keeps
    the value it had; name, VLAN, servers, subnets and cloud networks are
    those of the remote, the identity and the prior state are kept. *)
Theorem vswitch_read_keeps_is_canceled R d c w :
  let d' := snd (outcome (resourceVSwitchRead R d (MetaClient c)) w) in
  rd_Get d' "is_canceled" = rd_Get d "is_canceled" ∧
  rd_Get d' "canceled" = rd_Get d "canceled" ∧
  rd_Id d' = rd_Id d ∧
  rd_state d' = rd_state d ∧
  match vs_get R w (rd_Id d) with
  | Ok vSwitch =>
      rd_Get d' "name" = APrim (VString (vsName vSwitch)) ∧
      rd_Get d' "vlan" = APrim (VInt (vsVlan vSwitch)) ∧
      rd_Get d' "servers" = AList (serverToElem <$> vsServer vSwitch) ∧
      rd_Get d' "subnets" = AList (subnetToElem <$> vsSubnet vSwitch) ∧
      rd_Get d' "cloud_networks"
        = AList (cloudNetworkToElem <$> vsCloudNetwork vSwitch)
  | Err _ => d' = d
  end.
Proof.
  unfold outcome. rewrite resourceVSwitchRead_run.
  destruct (vs_get R w (rd_Id d)) as [vSwitch|err]; cbn [fst snd]; [|done].
  rewrite !rd_Set_Id.
  rewrite !rd_Get_Set by (apply vSwitchSchemaKeys_elem; tauto).
  repeat split; repeat case_decide; done.
Qed.

(** X12: a successful import of a vSwitch sets [is_canceled] to the flag
    of the remote and agrees with the read on every other attribute. *)
Theorem vswitch_import_sets_is_canceled R d c w vSwitch :
  vs_get R w (rd_Id d) = Ok vSwitch →
  ∃ d', outcome (resourceVSwitchImportState R d (MetaClient c)) w = Ok [d'] ∧
        rd_Get d' "is_canceled" = APrim (VBool (vsCanceled vSwitch)) ∧
        rd_Id d' = rd_Id d ∧
        (∀ key, key ≠ "is_canceled" →
           rd_Get d' key
           = rd_Get (snd (outcome (resourceVSwitchRead R d (MetaClient c)) w))
               key).
Proof.
  intros Hget. unfold outcome. rewrite resourceVSwitchRead_run.
  unfold resourceVSwitchImportState, bind, ret, getVSwitch, emit.
  rewrite Hget. cbn [fst snd]. eexists. split; [reflexivity|].
  rewrite !rd_Set_Id.
  rewrite !rd_Get_Set by (apply vSwitchSchemaKeys_elem; tauto).
  split; [by repeat case_decide|]. split; [done|].
  intros key Hkey.
  rewrite !rd_Get_Set by (apply vSwitchSchemaKeys_elem; tauto).
  repeat case_decide; congruence.
Qed.

(** X13: the update of a vSwitch keeps the identity. When the update call
    fails it returns one error, the data unchanged, and issues no other
    call; when the server list did not change it issues the update call
    and the fetch only; otherwise the remove and the add call stand
    between them. *)
Theorem vswitch_update_gating R d c w :
  let id := rd_Id d in
  let name := attrString (rd_Get d "name") in
  let vlan := attrInt (rd_Get d "vlan") in
  rd_Id (snd (outcome (resourceVSwitchUpdate R d (MetaClient c)) w)) = id ∧
  match vs_update R w id name vlan with
  | Some err =>
      outcome (resourceVSwitchUpdate R d (MetaClient c)) w
      = (diag.Errorf ("Unable to update VSwitch:" +:+ nl_tab +:+ " "
                      +:+ fmt_q R err), d) ∧
      calls (resourceVSwitchUpdate R d (MetaClient c)) w
      = w ++ [EvUpdateVSwitch id name vlan]
  | None =>
      if rd_HasChange d "servers" then
        ∃ toRemove toAdd,
          calls (resourceVSwitchUpdate R d (MetaClient c)) w
          = w ++ [EvUpdateVSwitch id name vlan;
                  EvRemoveVSwitchServers id toRemove;
                  EvAddVSwitchServers id toAdd;
                  EvGetVSwitch id]
      else
        calls (resourceVSwitchUpdate R d (MetaClient c)) w
        = w ++ [EvUpdateVSwitch id name vlan; EvGetVSwitch id]
  end.
Proof.
  intros id name vlan. subst id name vlan.
  rewrite resourceVSwitchUpdate_calls. split.
  - unfold outcome, resourceVSwitchUpdate, bind, updateVSwitch, emit, ret.
    cbn [fst snd]. destruct (vs_update R w _ _ _); [done|].
    destruct (rd_HasChange d "servers"); cbn [fst snd].
    + unfold removeVSwitchServers, addVSwitchServers, emit.
      destruct (rd_GetChange d "servers") as [o n]. cbn [fst snd].
      rewrite resourceVSwitchRead_run.
      match goal with
      | |- context [vs_get ?a ?b ?c] => destruct (vs_get a b c)
      end; cbn [fst snd]; [|done].
      by rewrite !rd_Set_Id.
    + rewrite resourceVSwitchRead_run.
      match goal with
      | |- context [vs_get ?a ?b ?c] => destruct (vs_get a b c)
      end; cbn [fst snd]; [|done].
      by rewrite !rd_Set_Id.
  - destruct (vs_update R w _ _ _) as [err|] eqn:Hup.
    + split; [|done].
      unfold outcome, resourceVSwitchUpdate, bind, updateVSwitch, emit, ret.
      cbn [fst snd]. by rewrite Hup.
    + unfold membershipEvents.
      destruct (rd_HasChange d "servers"); [|done]. by eexists _, _.
Qed.

Lemma elem_of_serverOfNumber_fmap (k : Z) (l : list Z) :
  serverOfNumber k ∈ serverOfNumber <$> l ↔ k ∈ l.
Proof.
  rewrite list_elem_of_fmap. split.
  - by intros (k' & [= ->] & Hin).
  - intros Hin. by exists k.
Qed.

(** X14: removing [toRemove] from the old members and adding [toAdd]
    gives the keys of the new members: a key is among the new ones
    exactly when it is old and not removed, or added. *)
Theorem membership_diff_converges (old new : list elem) (k : Z) :
  let toAdd := serversNotFound (serverNumberSet old) new in
  let toRemove := serversNotFound (serverNumberSet new) old in
  (k ∈ serverKeys old ∧ serverOfNumber k ∉ toRemove)
  ∨ serverOfNumber k ∈ toAdd
  ↔ k ∈ serverKeys new.
Proof.
  intros toAdd toRemove. subst toAdd toRemove.
  rewrite !serversNotFound_keys, !elem_of_serverOfNumber_fmap.
  rewrite !list_elem_of_filter.
  destruct (decide (k ∈ serverKeys new)), (decide (k ∈ serverKeys old));
    tauto.
Qed.

Lemma serverKeys_app l1 l2 :
  serverKeys (l1 ++ l2) = serverKeys l1 ++ serverKeys l2.
Proof. unfold serverKeys. apply omap_app. Qed.

(** X15: an entry that is no block or has no integer [server_number] is
    ignored by the differencer, in the key set and in the scan; the scan
    of two lists in a row is the two scans in a row. *)
Theorem membership_diff_skips_malformed (m : gset Z) (l1 l2 : list elem)
    (x : elem) :
  serverNumber x = None →
  serversNotFound m (l1 ++ x :: l2) = serversNotFound m (l1 ++ l2) ∧
  serverNumberSet (l1 ++ x :: l2) = serverNumberSet (l1 ++ l2) ∧
  serversNotFound m (l1 ++ l2)
    = serversNotFound m l1 ++ serversNotFound m l2.
Proof.
  intros Hx.
  assert (serverKeys (l1 ++ x :: l2) = serverKeys (l1 ++ l2)) as Hkeys.
  { rewrite !serverKeys_app. f_equal. unfold serverKeys. simpl.
    fold (serverNumber x). by rewrite Hx. }
  split; [|split].
  - unfold serversNotFound. rewrite !serversNotFound_acc. by rewrite Hkeys.
  - apply set_eq. intros k. by rewrite !elem_of_serverNumberSet, Hkeys.
  - unfold serversNotFound. rewrite !serversNotFound_acc. simpl.
    by rewrite serverKeys_app, filter_app, fmap_app.
Qed.

Lemma serverKeys_serverToElem (remote : list HetznerRobotVSwitchServer) :
  serverKeys (serverToElem <$> remote) = ServerNumber <$> remote.
Proof.
  induction remote as [|s rest IH]; [done|].
  change (serverKeys (serverToElem <$> s :: rest))
    with (ServerNumber s :: serverKeys (serverToElem <$> rest)).
  by rewrite IH.
Qed.

(** X16: the differencer reads the members the read wrote: against
    a server list fetched from the remote it removes the fetched servers
    whose number is not declared, as members that carry the number only,
    and adds the declared numbers the remote lacks. *)
Theorem remove_list_from_remote_state
    (remote : list HetznerRobotVSwitchServer) (declared : list elem) :
  serversNotFound (serverNumberSet declared) (serverToElem <$> remote)
  = serverOfNumber
      <$> filter (λ k, k ∉ serverKeys declared) (ServerNumber <$> remote) ∧
  serversNotFound (serverNumberSet (serverToElem <$> remote)) declared
  = serverOfNumber
      <$> filter (λ k, k ∉ ServerNumber <$> remote) (serverKeys declared).
Proof. by rewrite !serversNotFound_keys, !serverKeys_serverToElem. Qed.

Lemma rd_Get_SetId v d key : rd_Get (rd_SetId v d) key = rd_Get d key.
Proof. reflexivity. Qed.

Section CreateVSwitch.
Variable createVSwitch :
  HetznerRobotClient → string → Z → M (result HetznerRobotVSwitch).

(** X17: the create of a vSwitch issues the calls of [createVSwitch] and
    no other (no server is attached). On success the identity is the
    decimal form of the remote identifier and servers and cancellation
    flag are those of the remote, name and VLAN as declared; on failure it
    returns one wrapped error and the data unchanged. *)
Theorem vswitch_create_behaviour d c w :
  let name := attrString (rd_Get d "name") in
  let vlan := attrInt (rd_Get d "vlan") in
  let created := outcome (resourceVSwitchCreate createVSwitch d (MetaClient c)) w in
  calls (resourceVSwitchCreate createVSwitch d (MetaClient c)) w
    = calls (createVSwitch c name vlan) w ∧
  match outcome (createVSwitch c name vlan) w with
  | Ok vSwitch =>
      fst created = [] ∧
      rd_Id (snd created) = pretty (vsID vSwitch) ∧
      rd_Get (snd created) "servers"
        = AList (serverToElem <$> vsServer vSwitch) ∧
      rd_Get (snd created) "is_canceled"
        = APrim (VBool (vsCanceled vSwitch)) ∧
      rd_Get (snd created) "name" = rd_Get d "name" ∧
      rd_Get (snd created) "vlan" = rd_Get d "vlan"
  | Err err =>
      created = (diag.FromErr ("unable to create VSwitch: " +:+ err), d)
  end.
Proof.
  intros name vlan created. subst name vlan created.
  unfold calls, outcome, resourceVSwitchCreate, bind, ret.
  destruct (createVSwitch c _ _ w) as [[vSwitch|err] w']; cbn [fst snd];
    [|done].
  split; [done|]. split; [done|]. split; [done|].
  rewrite !rd_Get_SetId.
  rewrite !rd_Get_Set by (apply vSwitchSchemaKeys_elem; tauto).
  repeat split; repeat case_decide; done.
Qed.
End CreateVSwitch.

(** ** The provider configuration *)

Lemma providerConfigure_client (d : ResourceData) (c : HetznerRobotClient) :
  fst (providerConfigure d) = MetaClient c →
  rd_Get d "username" = APrim (VString (username c)) ∧
  rd_Get d "password" = APrim (VString (password c)) ∧
  rd_Get d "url" = APrim (VString (url c)) ∧
  username c ≠ "" ∧ password c ≠ "" ∧
  snd (providerConfigure d) = [].
Proof.
  unfold providerConfigure.
  destruct (rd_Get d "username") as [|[|u| |]|]; try done.
  destruct (rd_Get d "password") as [|[|p| |]|]; try done.
  destruct (rd_Get d "url") as [|[|l| |]|]; try done.
  destruct (decide (u = "")) as [->|Hu]; [done|].
  destruct (decide (p = "")) as [->|Hp]; [done|].
  simpl. by intros [= <-].
Qed.

Lemma providerConfigure_refusal (d : ResourceData) :
  fst (providerConfigure d) = MetaOther →
  diag.HasError (snd (providerConfigure d)) = true ∧
  length (snd (providerConfigure d)) = 1.
Proof.
  unfold providerConfigure.
  destruct (rd_Get d "username") as [|[|u| |]|]; try done.
  destruct (rd_Get d "password") as [|[|p| |]|]; try done.
  destruct (rd_Get d "url") as [|[|l| |]|]; try done.
  destruct (decide (u = "")) as [->|Hu]; [done|].
  destruct (decide (p = "")) as [->|Hp]; [done|].
  done.
Qed.

(** X18: [providerConfigure] yields a client exactly when username,
    password and url are strings and username and password are not empty
    (the url may be); the client holds these three values. It reports no
    error exactly in that case, and a refusal is one diagnostic. *)
Theorem providerConfigure_client_iff (d : ResourceData)
    (c : HetznerRobotClient) :
  (fst (providerConfigure d) = MetaClient c ↔
     rd_Get d "username" = APrim (VString (username c)) ∧
     rd_Get d "password" = APrim (VString (password c)) ∧
     rd_Get d "url" = APrim (VString (url c)) ∧
     username c ≠ "" ∧ password c ≠ "") ∧
  (diag.HasError (snd (providerConfigure d)) = false ↔
     ∃ c', fst (providerConfigure d) = MetaClient c') ∧
  (diag.HasError (snd (providerConfigure d)) = true ↔
     length (snd (providerConfigure d)) = 1).
Proof.
  split; [|split].
  - split.
    + intros Hc. apply providerConfigure_client in Hc. tauto.
    + intros (Hu & Hp & Hl & Hun & Hpn).
      unfold providerConfigure. rewrite Hu, Hp, Hl.
      rewrite !decide_False by done. by destruct c.
  - destruct (fst (providerConfigure d)) as [c'|] eqn:Hm.
    + apply providerConfigure_client in Hm as (_ & _ & _ & _ & _ & ->).
      split; [eauto|done].
    + apply providerConfigure_refusal in Hm as [-> _].
      split; [done|by intros [??]].
  - destruct (fst (providerConfigure d)) as [c'|] eqn:Hm.
    + by apply providerConfigure_client in Hm as (_ & _ & _ & _ & _ & ->).
    + by apply providerConfigure_refusal in Hm as [-> ->].
Qed.

(** X19: the credentials and the url of the provider configuration are
    those of the request a firewall create sends: basic authentication
    with the configured username and password, to the configured url
    followed by the path of the server address. *)
Theorem credentials_reach_the_request (R : Remote) (pd d : ResourceData)
    (m : Meta) (w : World) :
  fst (providerConfigure pd) = m →
  diag.HasError (snd (providerConfigure pd)) = false →
  (∀ method uri, http_NewRequest R method uri = None) →
  ∃ request,
    calls (resourceFirewallCreate R d m) w = w ++ [EvHttp request] ∧
    req_basic_auth request
      = (attrString (rd_Get pd "username"), attrString (rd_Get pd "password"))
    ∧ req_uri request
      = attrString (rd_Get pd "url") +:+ "/firewall/"
        +:+ attrString (rd_Get d "server_ip") ∧
    req_form request = Some (setFirewallData (declaredFirewall d)).
Proof.
  intros Hm Herr Hreq. destruct m as [c|].
  2:{ apply providerConfigure_refusal in Hm as [Hm _]. congruence. }
  apply providerConfigure_client in Hm as (Hu & Hp & Hl & _).
  exists (firewallRequest c (declaredFirewall d)).
  unfold calls. rewrite resourceFirewallCreate_run, setFirewall_run, Hreq.
  rewrite Hu, Hp, Hl. split; [|done].
  match goal with
  | |- context [http_Do ?a ?b ?c] => destruct (http_Do a b c) as [?|?|code ?]
  end; done.
Qed.
Lemma string_app_nil_r (s : string) : s +:+ "" = s.
Proof.
  induction s as [|c s IH]; [done|].
  change (String c (s +:+ "") = String c s). by f_equal.
Qed.

Lemma substring_0_prefix (sub rest : string) :
  String.substring 0 (String.length sub) (sub +:+ rest) = sub.
Proof. induction sub as [|c sub IH]; simpl; [by destruct rest | by rewrite IH]. Qed.

Lemma substring_skip (pre s : string) (m : nat) :
  String.substring (String.length pre) m (pre +:+ s) = String.substring 0 m s.
Proof. induction pre as [|c pre IH]; simpl; done. Qed.

Lemma substring_0_inv (s : string) : ∀ sub : string,
  String.substring 0 (String.length sub) s = sub → ∃ post, s = sub +:+ post.
Proof.
  induction s as [|c s IH]; intros [|c' sub]; simpl.
  - by exists "".
  - done.
  - by exists (String c s).
  - intros [= -> Hsub]. apply IH in Hsub as [post ->]. by exists post.
Qed.

Lemma substring_inv (s : string) : ∀ (i : nat) (sub : string),
  String.substring i (String.length sub) s = sub →
  (i ≤ String.length s)%nat →
  ∃ pre post, s = pre +:+ sub +:+ post ∧ String.length pre = i.
Proof.
  induction s as [|c s IH]; intros i sub Hsub Hi.
  - assert (i = 0) as -> by (simpl in Hi; lia).
    apply substring_0_inv in Hsub as [post Hs]. by exists "", post.
  - destruct i as [|i].
    + apply substring_0_inv in Hsub as [post Hs]. by exists "", post.
    + simpl in Hsub, Hi. apply IH in Hsub as (pre & post & -> & <-); [|lia].
      by exists (String c pre), post.
Qed.

Lemma slice_occurrence (pre sub post : string) :
  slice (pre +:+ sub +:+ post) (String.length pre)
    (String.length pre + String.length sub) = sub.
Proof.
  unfold slice. replace (_ + _ - _)%nat with (String.length sub) by lia.
  by rewrite substring_skip, substring_0_prefix.
Qed.

Lemma findInString_loop_true (s substr : string) : ∀ n i,
  findInString_loop s substr i n = true ↔
    ∃ j, (i ≤ j < i + n)%nat ∧
         slice s j (j + String.length substr) = substr.
Proof.
  induction n as [|n IH]; intros i; simpl.
  - split; [done|]. intros (j & ? & _). lia.
  - case_decide as Hi.
    + split; [|done]. intros _. exists i. split; [lia|done].
    + rewrite IH. split.
      * intros (j & ? & ?). exists j. split; [lia|done].
      * intros (j & ? & Hj). exists j. split; [|done].
        destruct (decide (j = i)) as [->|]; [done|lia].
Qed.

Lemma findInString_iff_substring (s substr : string) :
  findInString s substr = true ↔ ∃ pre post, s = pre +:+ substr +:+ post.
Proof.
  unfold findInString. rewrite findInString_loop_true. split.
  - intros (j & Hj & H). unfold slice in H.
    replace (j + String.length substr - j)%nat
      with (String.length substr) in H by lia.
    apply substring_inv in H as (pre & post & -> & _); [|lia].
    by exists pre, post.
  - intros (pre & post & ->). exists (String.length pre). split.
    + rewrite !string_length_app. lia.
    + apply slice_occurrence.
Qed.

Lemma contains_substring (s substr : string) :
  contains s substr = true ↔ ∃ pre post, s = pre +:+ substr +:+ post.
Proof.
  unfold contains. split.
  - intros [Hlen H]%andb_prop. apply bool_decide_eq_true_1 in Hlen.
    apply orb_prop in H as [H|H]; [apply orb_prop in H as [H|H]|].
    + apply bool_decide_eq_true_1 in H as ->. exists "", "". simpl.
      by rewrite string_app_nil_r.
    + apply bool_decide_eq_true_1 in H.
      destruct substr; [|done]. by exists "", s.
    + apply andb_prop in H as [Hlt H]. apply bool_decide_eq_true_1 in Hlt.
      apply orb_prop in H as [H|H]; [apply orb_prop in H as [H|H]|].
      * apply bool_decide_eq_true_1 in H. unfold slice in H.
        rewrite Nat.sub_0_r in H.
        apply substring_0_inv in H as [post ->]. by exists "", post.
      * apply bool_decide_eq_true_1 in H. unfold slice in H.
        replace (String.length s - (String.length s - String.length substr))%nat
          with (String.length substr) in H by lia.
        apply substring_inv in H as (pre & post & -> & _); [|lia].
        by exists pre, post.
      * unfold findInString in H. apply findInString_loop_true in H
          as (j & Hj & H).
        unfold slice in H.
        replace (j + String.length substr - j)%nat
          with (String.length substr) in H by lia.
        apply substring_inv in H as (pre & post & -> & _); [|lia].
        by exists pre, post.
  - intros (pre & post & ->).
    rewrite !string_length_app.
    apply andb_true_intro. split; [apply bool_decide_eq_true_2; lia|].
    destruct (decide (String.length pre + String.length post = 0)%nat)
      as [Hz|Hnz].
    + destruct pre; [|simpl in Hz; lia]. destruct post; [|simpl in Hz; lia].
      apply orb_true_intro. left. apply orb_true_intro. left.
      apply bool_decide_eq_true_2. simpl. apply string_app_nil_r.
    + apply orb_true_intro. right.
      apply andb_true_intro. split; [apply bool_decide_eq_true_2; lia|].
      apply orb_true_intro. right.
      unfold findInString. apply findInString_loop_true.
      exists (String.length pre). split.
      * rewrite !string_length_app. lia.
      * apply slice_occurrence.
Qed.

(** X20: [contains] holds exactly when the second string occurs in the
    first, and so does [findInString] alone: the shortcuts of [contains]
    change nothing. *)
Theorem contains_iff_substring (s substr : string) :
  (contains s substr = true ↔ ∃ pre post, s = pre +:+ substr +:+ post) ∧
  (findInString s substr = true ↔ ∃ pre post, s = pre +:+ substr +:+ post) ∧
  contains s substr = findInString s substr.
Proof.
  split; [apply contains_substring|].
  split; [apply findInString_iff_substring|].
  apply eq_true_iff_eq.
  by rewrite contains_substring, findInString_iff_substring.
Qed.

(** ** Instances of the conditional statements *)

Lemma declared_versions_never_empty_witness :
  IPVersion bareRule ≠ "" ∧ effectiveIPVersion bareRule = IPVersion bareRule.
Proof.
  apply (declared_versions_never_empty
           (firewallData true true [unversionedRuleBlock]) bareRule).
  vm_compute. left.
Defined.

Lemma payload_groups_of_app_witness :
  setFirewallData (firewallOf [ipv6Rule; bareRule]) !! inputKey 1 "name"
  = setFirewallData (firewallOf [bareRule]) !! inputKey 0 "name".
Proof.
  destruct (payload_groups_of_app (firewallOf [ipv6Rule; bareRule])
              (firewallOf [ipv6Rule]) (firewallOf [bareRule]))
    as [_ Hshift]; [reflexivity|].
  apply (Hshift 0 "name").
Defined.

Lemma firewall_read_round_trip_witness :
  setFirewallData
    (declaredFirewall
       (snd (outcome
               (resourceFirewallRead remoteOk (decodeAs remoteFirewall)
                  (importData "1.2.3.4") (MetaClient exampleClient)) [])))
  = setFirewallData remoteFirewall.
Proof.
  destruct (firewall_read_round_trip remoteOk (decodeAs remoteFirewall)
              (importData "1.2.3.4") exampleClient [] remoteFirewall)
    as (_ & _ & _ & _ & Hpayload); [reflexivity|].
  apply Hpayload. left. reflexivity.
Defined.

Lemma vswitch_import_sets_is_canceled_witness :
  ∃ d', outcome (resourceVSwitchImportState remoteOk (switchData [] [])
                   (MetaClient exampleClient)) [] = Ok [d'] ∧
        rd_Get d' "is_canceled" = APrim (VBool false).
Proof.
  destruct (vswitch_import_sets_is_canceled remoteOk (switchData [] [])
              exampleClient [] exampleVSwitch)
    as (d' & Hout & Hflag & _); [reflexivity|].
  exists d'. split; [exact Hout | exact Hflag].
Defined.

Lemma membership_diff_skips_malformed_witness :
  serversNotFound ∅ ([member 1] ++ EOther VNil :: [member 2])
  = serversNotFound ∅ ([member 1] ++ [member 2]).
Proof.
  destruct (membership_diff_skips_malformed ∅ [member 1] [member 2]
              (EOther VNil)) as [Hskip _]; [reflexivity|].
  exact Hskip.
Defined.

Lemma credentials_reach_the_request_witness :
  ∃ request,
    calls (resourceFirewallCreate remoteOk
             (firewallData true true [bareRuleBlock])
             (MetaClient exampleClient)) [] = [EvHttp request] ∧
    req_basic_auth request = ("user", "secret").
Proof.
  destruct (credentials_reach_the_request remoteOk
              (providerData "user" "secret" "https://robot-ws.your-server.de")
              (firewallData true true [bareRuleBlock])
              (MetaClient exampleClient) [])
    as (request & Hcalls & Hauth & _);
    [reflexivity | reflexivity | intros; reflexivity |].
  exists request. split; [exact Hcalls | exact Hauth].
Defined.
